(** * Z80Core: a shallow embedding of the emulator core

    The JavaScript class [Z80Core] is embedded method by method.

    - JavaScript numbers that hold integers are [Z]; the bit operators
      [&], [|], [<<], [>>] are [Z.land], [Z.lor], [Z.shiftl], [Z.shiftr].
    - [this.memory], a [Uint8Array(65536)], is a total map from addresses
      to cells; every access in the class goes through [address & 0xFFFF].
    - [this.registers] is a record.  Its two members [flags] and
      [flags_prime] are JavaScript objects, hence references: they are
      addresses into an object store ([Heap]), so that sharing between the
      live register file and a snapshot is visible.
    - [this.breakpoints], a [Set] of numbers, is a [gset Z]. *)

From Stdlib Require Import ZArith Lia Bool.
From stdpp Require Import base option list gmap functions.

Local Open Scope Z_scope.

(** ** Data model *)

(** The object literal [{ s, z, h, pv, n, c }]. *)
Module Flags.
Record t : Type := mk { s : Z; z : Z; h : Z; pv : Z; n : Z; c : Z }.

Definition zero : t := mk 0 0 0 0 0 0.

(** Names of the six properties, for keyed writes [obj[key] = v]. *)
Inductive key : Type := K_s | K_z | K_h | K_pv | K_n | K_c.

Definition set (k : key) (v : Z) (f : t) : t :=
  match k with
  | K_s => mk v (z f) (h f) (pv f) (n f) (c f)
  | K_z => mk (s f) v (h f) (pv f) (n f) (c f)
  | K_h => mk (s f) (z f) v (pv f) (n f) (c f)
  | K_pv => mk (s f) (z f) (h f) v (n f) (c f)
  | K_n => mk (s f) (z f) (h f) (pv f) v (c f)
  | K_c => mk (s f) (z f) (h f) (pv f) (n f) v
  end.
End Flags.

(** A reference to a flags object, and the store of such objects. *)
Abbreviation ref := nat.
Abbreviation Heap := (list Flags.t).

(** [this.registers]. *)
Module Registers.
Record t : Type := mk {
  a : Z; b : Z; c : Z; d : Z; e : Z; h : Z; l : Z;
  a_prime : Z; b_prime : Z; c_prime : Z; d_prime : Z;
  e_prime : Z; h_prime : Z; l_prime : Z;
  i : Z; r : Z;
  ix : Z; iy : Z; sp : Z; pc : Z;
  flags : ref;
  flags_prime : ref
}.

Definition set_a (v : Z) (x : t) : t :=
  mk v (b x) (c x) (d x) (e x) (h x) (l x)
     (a_prime x) (b_prime x) (c_prime x) (d_prime x)
     (e_prime x) (h_prime x) (l_prime x)
     (i x) (r x) (ix x) (iy x) (sp x) (pc x) (flags x) (flags_prime x).

Definition set_bc (vb vc : Z) (x : t) : t :=
  mk (a x) vb vc (d x) (e x) (h x) (l x)
     (a_prime x) (b_prime x) (c_prime x) (d_prime x)
     (e_prime x) (h_prime x) (l_prime x)
     (i x) (r x) (ix x) (iy x) (sp x) (pc x) (flags x) (flags_prime x).

Definition set_de (vd ve : Z) (x : t) : t :=
  mk (a x) (b x) (c x) vd ve (h x) (l x)
     (a_prime x) (b_prime x) (c_prime x) (d_prime x)
     (e_prime x) (h_prime x) (l_prime x)
     (i x) (r x) (ix x) (iy x) (sp x) (pc x) (flags x) (flags_prime x).

Definition set_hl (vh vl : Z) (x : t) : t :=
  mk (a x) (b x) (c x) (d x) (e x) vh vl
     (a_prime x) (b_prime x) (c_prime x) (d_prime x)
     (e_prime x) (h_prime x) (l_prime x)
     (i x) (r x) (ix x) (iy x) (sp x) (pc x) (flags x) (flags_prime x).

Definition set_sp (v : Z) (x : t) : t :=
  mk (a x) (b x) (c x) (d x) (e x) (h x) (l x)
     (a_prime x) (b_prime x) (c_prime x) (d_prime x)
     (e_prime x) (h_prime x) (l_prime x)
     (i x) (r x) (ix x) (iy x) v (pc x) (flags x) (flags_prime x).

Definition set_pc (v : Z) (x : t) : t :=
  mk (a x) (b x) (c x) (d x) (e x) (h x) (l x)
     (a_prime x) (b_prime x) (c_prime x) (d_prime x)
     (e_prime x) (h_prime x) (l_prime x)
     (i x) (r x) (ix x) (iy x) (sp x) v (flags x) (flags_prime x).
End Registers.

(** The instance fields of [Z80Core]. *)
Record Z80Core : Type := mkZ80Core {
  registers : Registers.t;
  memory : Z -> Z;
  halted : bool;
  interruptsEnabled : bool;
  breakpoints : gset Z;
  isDebugging : bool;
  stepMode : bool
}.

Definition with_registers (f : Registers.t -> Registers.t) (this : Z80Core) : Z80Core :=
  mkZ80Core (f (registers this)) (memory this) (halted this)
            (interruptsEnabled this) (breakpoints this)
            (isDebugging this) (stepMode this).

Definition with_memory (f : (Z -> Z) -> (Z -> Z)) (this : Z80Core) : Z80Core :=
  mkZ80Core (registers this) (f (memory this)) (halted this)
            (interruptsEnabled this) (breakpoints this)
            (isDebugging this) (stepMode this).

Definition with_halted (v : bool) (this : Z80Core) : Z80Core :=
  mkZ80Core (registers this) (memory this) v
            (interruptsEnabled this) (breakpoints this)
            (isDebugging this) (stepMode this).

Definition with_interruptsEnabled (v : bool) (this : Z80Core) : Z80Core :=
  mkZ80Core (registers this) (memory this) (halted this)
            v (breakpoints this)
            (isDebugging this) (stepMode this).

Definition with_breakpoints (f : gset Z -> gset Z) (this : Z80Core) : Z80Core :=
  mkZ80Core (registers this) (memory this) (halted this)
            (interruptsEnabled this) (f (breakpoints this))
            (isDebugging this) (stepMode this).

Definition with_isDebugging (v : bool) (this : Z80Core) : Z80Core :=
  mkZ80Core (registers this) (memory this) (halted this)
            (interruptsEnabled this) (breakpoints this)
            v (stepMode this).

(** ** Register pairs *)

Definition getBC (this : Z80Core) : Z :=
  Z.lor (Z.shiftl (Registers.b (registers this)) 8) (Registers.c (registers this)).
Definition getDE (this : Z80Core) : Z :=
  Z.lor (Z.shiftl (Registers.d (registers this)) 8) (Registers.e (registers this)).
Definition getHL (this : Z80Core) : Z :=
  Z.lor (Z.shiftl (Registers.h (registers this)) 8) (Registers.l (registers this)).

Definition setBC (value : Z) : Z80Core -> Z80Core :=
  with_registers
    (Registers.set_bc (Z.land (Z.shiftr value 8) 0xFF) (Z.land value 0xFF)).
Definition setDE (value : Z) : Z80Core -> Z80Core :=
  with_registers
    (Registers.set_de (Z.land (Z.shiftr value 8) 0xFF) (Z.land value 0xFF)).
Definition setHL (value : Z) : Z80Core -> Z80Core :=
  with_registers
    (Registers.set_hl (Z.land (Z.shiftr value 8) 0xFF) (Z.land value 0xFF)).

(** ** Memory access *)

Definition readByte (address : Z) (this : Z80Core) : Z :=
  memory this (Z.land address 0xFFFF).

Definition writeByte (address value : Z) : Z80Core -> Z80Core :=
  with_memory (fun m => <[Z.land address 0xFFFF := Z.land value 0xFF]> m).

Definition readWord (address : Z) (this : Z80Core) : Z :=
  let low := readByte address this in
  let high := readByte (Z.land (address + 1) 0xFFFF) this in
  Z.lor (Z.shiftl high 8) low.

Definition writeWord (address value : Z) (this : Z80Core) : Z80Core :=
  let this := writeByte address (Z.land value 0xFF) this in
  writeByte (Z.land (address + 1) 0xFFFF) (Z.land (Z.shiftr value 8) 0xFF) this.

(** ** Stack *)

Definition pushStack (value : Z) (this : Z80Core) : Z80Core :=
  let this :=
    with_registers
      (fun r => Registers.set_sp (Z.land (Registers.sp r - 2) 0xFFFF) r) this in
  writeWord (Registers.sp (registers this)) value this.

Definition popStack (this : Z80Core) : Z * Z80Core :=
  let value := readWord (Registers.sp (registers this)) this in
  let this :=
    with_registers
      (fun r => Registers.set_sp (Z.land (Registers.sp r + 2) 0xFFFF) r) this in
  (value, this).

(** ** The flags register *)

(** Reading through a reference.  JavaScript references never dangle; the
    predicate [valid] below states this for the two references of the
    register file. *)
Definition deref (σ : Heap) (p : ref) : Flags.t := default Flags.zero (σ !! p).

(** [obj[key] = v] on the flags object at [p]. *)
Definition write_flag (p : ref) (k : Flags.key) (v : Z) (σ : Heap) : Heap :=
  alter (Flags.set k v) p σ.

Definition valid (this : Z80Core) (σ : Heap) : Prop :=
  (Registers.flags (registers this) < length σ)%nat /\
  (Registers.flags_prime (registers this) < length σ)%nat.

Definition getF (this : Z80Core) (σ : Heap) : Z :=
  let f := deref σ (Registers.flags (registers this)) in
  Z.lor (Z.lor (Z.lor (Z.lor (Z.lor
    (Z.shiftl (Flags.s f) 7) (Z.shiftl (Flags.z f) 6))
    (Z.shiftl (Flags.h f) 4)) (Z.shiftl (Flags.pv f) 2))
    (Z.shiftl (Flags.n f) 1)) (Flags.c f).

Definition setF (value : Z) (this : Z80Core) (σ : Heap) : Heap :=
  let p := Registers.flags (registers this) in
  let σ := write_flag p Flags.K_s (Z.shiftr (Z.land value 0x80) 7) σ in
  let σ := write_flag p Flags.K_z (Z.shiftr (Z.land value 0x40) 6) σ in
  let σ := write_flag p Flags.K_h (Z.shiftr (Z.land value 0x10) 4) σ in
  let σ := write_flag p Flags.K_pv (Z.shiftr (Z.land value 0x04) 2) σ in
  let σ := write_flag p Flags.K_n (Z.shiftr (Z.land value 0x02) 1) σ in
  write_flag p Flags.K_c (Z.land value 0x01) σ.

(** ** Exchange of the register sets

    Seven destructuring swaps of numbers, then one swap of the two object
    references. *)
Definition exchangeRegisterSets : Z80Core -> Z80Core :=
  with_registers (fun x =>
    Registers.mk
      (Registers.a_prime x) (Registers.b_prime x) (Registers.c_prime x)
      (Registers.d_prime x) (Registers.e_prime x) (Registers.h_prime x)
      (Registers.l_prime x)
      (Registers.a x) (Registers.b x) (Registers.c x) (Registers.d x)
      (Registers.e x) (Registers.h x) (Registers.l x)
      (Registers.i x) (Registers.r x)
      (Registers.ix x) (Registers.iy x) (Registers.sp x) (Registers.pc x)
      (Registers.flags_prime x) (Registers.flags x)).

(** ** Reset

    The loop over [Object.keys(this.registers)] sets every number to 0 and,
    for the two members of type object, sets each of their properties to 0
    in place (the references themselves stay).  Keys are visited in
    insertion order, [flags] before [flags_prime]. *)
Definition clear_flags (p : ref) (σ : Heap) : Heap :=
  let σ := write_flag p Flags.K_s 0 σ in
  let σ := write_flag p Flags.K_z 0 σ in
  let σ := write_flag p Flags.K_h 0 σ in
  let σ := write_flag p Flags.K_pv 0 σ in
  let σ := write_flag p Flags.K_n 0 σ in
  write_flag p Flags.K_c 0 σ.

Definition reset (this : Z80Core) (σ : Heap) : Z80Core * Heap :=
  let x := registers this in
  let x := Registers.mk 0 0 0 0 0 0 0  0 0 0 0 0 0 0  0 0  0 0 0 0
                        (Registers.flags x) (Registers.flags_prime x) in
  let σ := clear_flags (Registers.flags x) σ in
  let σ := clear_flags (Registers.flags_prime x) σ in
  let x := Registers.set_pc 0 x in
  let x := Registers.set_sp 0xFFFF x in
  (mkZ80Core x (memory this) false false
             (breakpoints this) (isDebugging this) (stepMode this), σ).

(** ** Construction: [new Z80Core()] allocates the two flags objects. *)
Definition constructor : Z80Core * Heap :=
  (mkZ80Core
     (Registers.mk 0 0 0 0 0 0 0  0 0 0 0 0 0 0  0 0  0 0 0 0  0%nat 1%nat)
     (fun _ => 0) false false ∅ false false,
   [Flags.zero; Flags.zero]).

(** ** Program loading *)

Fixpoint loadProgram_from (i : Z) (program : list Z) (startAddress : Z)
    (this : Z80Core) : Z80Core :=
  match program with
  | [] => this
  | byte :: rest =>
      loadProgram_from (i + 1) rest startAddress
        (writeByte (startAddress + i) byte this)
  end.

Definition loadProgram (program : list Z) (startAddress : Z) : Z80Core -> Z80Core :=
  loadProgram_from 0 program startAddress.

(** ** Breakpoints *)

Definition setBreakpoint (address : Z) : Z80Core -> Z80Core :=
  with_breakpoints (fun bp => {[Z.land address 0xFFFF]} ∪ bp).

Definition clearBreakpoint (address : Z) : Z80Core -> Z80Core :=
  with_breakpoints (fun bp => bp ∖ {[Z.land address 0xFFFF]}).

Definition clearAllBreakpoints : Z80Core -> Z80Core :=
  with_breakpoints (fun _ => ∅).

(** ** Execution *)

Definition executeInstruction (opcode : Z) (this : Z80Core) : Z80Core :=
  if opcode =? 0x00 then this
  else if opcode =? 0x3E then
    let value := readByte (Registers.pc (registers this)) this in
    let this :=
      with_registers
        (fun r => Registers.set_pc (Z.land (Registers.pc r + 1) 0xFFFF) r) this in
    with_registers (Registers.set_a value) this
  else if opcode =? 0x76 then with_halted true this
  else this.

Definition step (this : Z80Core) : bool * Z80Core :=
  if halted this then (false, this)
  else
    let opcode := readByte (Registers.pc (registers this)) this in
    let this :=
      with_registers
        (fun r => Registers.set_pc (Z.land (Registers.pc r + 1) 0xFFFF) r) this in
    (true, executeInstruction opcode this).

(** The [while] loop of [run].  The loop need not terminate (a memory of
    NOPs and no breakpoint), so it is given fuel: [None] means the fuel ran
    out.  The first component of the result counts the calls of [step()]
    the loop made; it is not a field of the class. *)
Fixpoint run_loop (fuel : nat) (steps : nat) (this : Z80Core) : option (nat * Z80Core) :=
  match fuel with
  | O => None
  | S fuel =>
      if halted this then Some (steps, this)
      else if bool_decide (Registers.pc (registers this) ∈ breakpoints this)
      then Some (steps, with_isDebugging true this)
      else run_loop fuel (S steps) (snd (step this))
  end.

Definition run (fuel : nat) (this : Z80Core) : option (nat * Z80Core) :=
  run_loop fuel O (with_isDebugging false this).

(** ** Snapshots *)

(** The object returned by [getState()].  [registers] is a fresh object
    (the spread copies the properties of [this.registers] one level deep,
    so its [flags] and [flags_prime] are the references the live register
    file holds); [flags] is a reference to a fresh copy of the live flags
    object. *)
Module Snapshot.
Record t : Type := mk {
  registers : Registers.t;
  pc : Z;
  sp : Z;
  flags : ref;
  halted : bool;
  interruptsEnabled : bool
}.
End Snapshot.

Definition getState (this : Z80Core) (σ : Heap) : Snapshot.t * Heap :=
  let x := registers this in
  (Snapshot.mk x (Registers.pc x) (Registers.sp x) (length σ)
               (halted this) (interruptsEnabled this),
   σ ++ [deref σ (Registers.flags x)]).

(** What a holder of a snapshot can do to it: assign to a property of the
    snapshot or of its [registers] object (both are objects of their own),
    or assign to a property of one of the three flags objects it can
    reach. *)
Inductive mutation : Type :=
  | M_assign (f : Snapshot.t -> Snapshot.t)
  | M_flags (k : Flags.key) (v : Z)
  | M_registers_flags (k : Flags.key) (v : Z)
  | M_registers_flags_prime (k : Flags.key) (v : Z).

Definition mutate (μ : mutation) (snap : Snapshot.t) (σ : Heap) : Snapshot.t * Heap :=
  match μ with
  | M_assign f => (f snap, σ)
  | M_flags k v => (snap, write_flag (Snapshot.flags snap) k v σ)
  | M_registers_flags k v =>
      (snap, write_flag (Registers.flags (Snapshot.registers snap)) k v σ)
  | M_registers_flags_prime k v =>
      (snap, write_flag (Registers.flags_prime (Snapshot.registers snap)) k v σ)
  end.

(** The live machine as an observer sees it: the instance fields, and the
    contents of the two flags objects the register file refers to. *)
Definition live (this : Z80Core) (σ : Heap) : Z80Core * Flags.t * Flags.t :=
  (this, deref σ (Registers.flags (registers this)),
         deref σ (Registers.flags_prime (registers this))).

(** ** State import *)

(** The argument of [setState]: every property may be absent. *)
Module StateRegisters.
Record t : Type := mk {
  a : option Z; b : option Z; c : option Z; d : option Z; e : option Z;
  h : option Z; l : option Z;
  a_prime : option Z; b_prime : option Z; c_prime : option Z;
  d_prime : option Z; e_prime : option Z; h_prime : option Z;
  l_prime : option Z;
  i : option Z; r : option Z;
  ix : option Z; iy : option Z; sp : option Z; pc : option Z;
  flags : option ref;
  flags_prime : option ref
}.

Definition empty : t :=
  mk None None None None None None None
     None None None None None None None
     None None None None None None None None.
End StateRegisters.

Module StateFlags.
Record t : Type := mk {
  s : option Z; z : option Z; h : option Z;
  pv : option Z; n : option Z; c : option Z
}.
End StateFlags.

Module State.
Record t : Type := mk {
  registers : option StateRegisters.t;
  flags : option StateFlags.t;
  pc : option Z;
  sp : option Z;
  halted : option bool;
  interruptsEnabled : option bool
}.
End State.

(** [if (key in source) target[key] = source[key]]: every key of the live
    register file is defined, so the guard [this.registers[key] !==
    undefined] holds for each of them. *)
Definition merge {A : Type} (source : option A) (target : A) : A :=
  default target source.

Definition merge_registers (s : StateRegisters.t) (x : Registers.t) : Registers.t :=
  Registers.mk
    (merge (StateRegisters.a s) (Registers.a x))
    (merge (StateRegisters.b s) (Registers.b x))
    (merge (StateRegisters.c s) (Registers.c x))
    (merge (StateRegisters.d s) (Registers.d x))
    (merge (StateRegisters.e s) (Registers.e x))
    (merge (StateRegisters.h s) (Registers.h x))
    (merge (StateRegisters.l s) (Registers.l x))
    (merge (StateRegisters.a_prime s) (Registers.a_prime x))
    (merge (StateRegisters.b_prime s) (Registers.b_prime x))
    (merge (StateRegisters.c_prime s) (Registers.c_prime x))
    (merge (StateRegisters.d_prime s) (Registers.d_prime x))
    (merge (StateRegisters.e_prime s) (Registers.e_prime x))
    (merge (StateRegisters.h_prime s) (Registers.h_prime x))
    (merge (StateRegisters.l_prime s) (Registers.l_prime x))
    (merge (StateRegisters.i s) (Registers.i x))
    (merge (StateRegisters.r s) (Registers.r x))
    (merge (StateRegisters.ix s) (Registers.ix x))
    (merge (StateRegisters.iy s) (Registers.iy x))
    (merge (StateRegisters.sp s) (Registers.sp x))
    (merge (StateRegisters.pc s) (Registers.pc x))
    (merge (StateRegisters.flags s) (Registers.flags x))
    (merge (StateRegisters.flags_prime s) (Registers.flags_prime x)).

Definition merge_flag (p : ref) (k : Flags.key) (source : option Z) (σ : Heap) : Heap :=
  match source with
  | Some v => write_flag p k v σ
  | None => σ
  end.

Definition merge_flags (s : StateFlags.t) (p : ref) (σ : Heap) : Heap :=
  let σ := merge_flag p Flags.K_s (StateFlags.s s) σ in
  let σ := merge_flag p Flags.K_z (StateFlags.z s) σ in
  let σ := merge_flag p Flags.K_h (StateFlags.h s) σ in
  let σ := merge_flag p Flags.K_pv (StateFlags.pv s) σ in
  let σ := merge_flag p Flags.K_n (StateFlags.n s) σ in
  merge_flag p Flags.K_c (StateFlags.c s) σ.

Definition setState (state : State.t) (this : Z80Core) (σ : Heap) : Z80Core * Heap :=
  let this :=
    match State.registers state with
    | Some s => with_registers (merge_registers s) this
    | None => this
    end in
  let σ :=
    match State.flags state with
    | Some s => merge_flags s (Registers.flags (registers this)) σ
    | None => σ
    end in
  let this :=
    match State.pc state with
    | Some v => with_registers (Registers.set_pc (Z.land v 0xFFFF)) this
    | None => this
    end in
  let this :=
    match State.sp state with
    | Some v => with_registers (Registers.set_sp (Z.land v 0xFFFF)) this
    | None => this
    end in
  let this :=
    match State.halted state with
    | Some v => with_halted v this
    | None => this
    end in
  let this :=
    match State.interruptsEnabled state with
    | Some v => with_interruptsEnabled v this
    | None => this
    end in
  (this, σ).

(** ** Auxiliary definitions for the statements *)

(** The expression of [getF] on the contents of the flags object, and the
    six assignments of [setF] on it. *)
Definition pack (f : Flags.t) : Z :=
  Z.lor (Z.lor (Z.lor (Z.lor (Z.lor
    (Z.shiftl (Flags.s f) 7) (Z.shiftl (Flags.z f) 6))
    (Z.shiftl (Flags.h f) 4)) (Z.shiftl (Flags.pv f) 2))
    (Z.shiftl (Flags.n f) 1)) (Flags.c f).

Definition unpack (value : Z) (f : Flags.t) : Flags.t :=
  Flags.set Flags.K_c (Z.land value 0x01)
    (Flags.set Flags.K_n (Z.shiftr (Z.land value 0x02) 1)
      (Flags.set Flags.K_pv (Z.shiftr (Z.land value 0x04) 2)
        (Flags.set Flags.K_h (Z.shiftr (Z.land value 0x10) 4)
          (Flags.set Flags.K_z (Z.shiftr (Z.land value 0x40) 6)
            (Flags.set Flags.K_s (Z.shiftr (Z.land value 0x80) 7) f))))).

(** A flag assignment: each of the six flags is 0 or 1. *)
Definition is_bit (x : Z) : Prop := x = 0 \/ x = 1.

Definition flags_ok (f : Flags.t) : Prop :=
  is_bit (Flags.s f) /\ is_bit (Flags.z f) /\ is_bit (Flags.h f) /\
  is_bit (Flags.pv f) /\ is_bit (Flags.n f) /\ is_bit (Flags.c f).

(** The machine after the fetch of [step]: PC advanced by one, modulo
    65536. *)
Definition fetched (this : Z80Core) : Z80Core :=
  with_registers
    (Registers.set_pc ((Registers.pc (registers this) + 1) mod 65536)) this.

(** [n] further calls of [step()], keeping the machine each returns. *)
Definition steps (n : nat) (this : Z80Core) : Z80Core :=
  Nat.iter n (fun m => snd (step m)) this.

(** The machine after [reset()] with PC moved to [k]. *)
Definition at_pc (this0 : Z80Core) (σ0 : Heap) (k : Z) : Z80Core :=
  with_registers (Registers.set_pc k) (fst (reset this0 σ0)).

(** Register widths. *)
Definition is_byte (x : Z) : Prop := 0 <= x < 256.
Definition is_word (x : Z) : Prop := 0 <= x < 65536.

Definition registers_ok (x : Registers.t) : Prop :=
  (is_byte (Registers.a x) /\ is_byte (Registers.b x) /\ is_byte (Registers.c x) /\
   is_byte (Registers.d x) /\ is_byte (Registers.e x) /\ is_byte (Registers.h x) /\
   is_byte (Registers.l x)) /\
  (is_byte (Registers.a_prime x) /\ is_byte (Registers.b_prime x) /\
   is_byte (Registers.c_prime x) /\ is_byte (Registers.d_prime x) /\
   is_byte (Registers.e_prime x) /\ is_byte (Registers.h_prime x) /\
   is_byte (Registers.l_prime x)) /\
  (is_byte (Registers.i x) /\ is_byte (Registers.r x)) /\
  (is_word (Registers.ix x) /\ is_word (Registers.iy x) /\
   is_word (Registers.sp x) /\ is_word (Registers.pc x)).

(** The cells of a [Uint8Array] are bytes. *)
Definition memory_ok (this : Z80Core) : Prop :=
  forall address : Z, is_byte (memory this address).

(** A [setState] argument with only [registers.a], and one with only
    [registers.pc], present. *)
Definition state_registers_a (v : Z) : State.t :=
  State.mk
    (Some (StateRegisters.mk (Some v) None None None None None None
             None None None None None None None
             None None None None None None None None))
    None None None None None.

Definition state_registers_pc (v : Z) : State.t :=
  State.mk
    (Some (StateRegisters.mk None None None None None None None
             None None None None None None None
             None None None None None (Some v) None None))
    None None None None None.

Definition state_pc (v : Z) : State.t :=
  State.mk None None (Some v) None None None.

(** ** Further methods of the class *)

(** [toggleBreakpoint]: the address is masked first; the result tells
    whether the breakpoint is set afterwards. *)
Definition toggleBreakpoint (address : Z) (this : Z80Core) : bool * Z80Core :=
  let address := Z.land address 0xFFFF in
  if bool_decide (address ∈ breakpoints this)
  then (false, with_breakpoints (fun bp => bp ∖ {[address]}) this)
  else (true, with_breakpoints (fun bp => {[address]} ∪ bp) this).

(** The object literal [{ stopped, address }] that [debug] returns. *)
Module DebugResult.
Record t : Type := mk { stopped : bool; address : Z }.
End DebugResult.

Definition debug (this : Z80Core) : DebugResult.t * Z80Core :=
  let this := with_isDebugging true this in
  if negb (halted this) && negb (stepMode this) then
    if bool_decide (Registers.pc (registers this) ∈ breakpoints this)
    then (DebugResult.mk true (Registers.pc (registers this)), this)
    else
      let this := snd (step this) in
      (DebugResult.mk (halted this) (Registers.pc (registers this)), this)
  else (DebugResult.mk (halted this) (Registers.pc (registers this)), this).

(** [n] calls of [debug()], keeping the machine each leaves. *)
Definition debugs (n : nat) (this : Z80Core) : Z80Core :=
  Nat.iter n (fun m => snd (debug m)) this.

(** ** A snapshot handed back to [setState]

    The snapshot object itself is the argument: all its properties are
    present, and the six of [state.flags] are read from the object the
    snapshot refers to, as the store has it at the time of the call. *)
Definition state_of_snapshot (snap : Snapshot.t) (σ : Heap) : State.t :=
  let x := Snapshot.registers snap in
  let f := deref σ (Snapshot.flags snap) in
  State.mk
    (Some (StateRegisters.mk
       (Some (Registers.a x)) (Some (Registers.b x)) (Some (Registers.c x))
       (Some (Registers.d x)) (Some (Registers.e x)) (Some (Registers.h x))
       (Some (Registers.l x))
       (Some (Registers.a_prime x)) (Some (Registers.b_prime x))
       (Some (Registers.c_prime x)) (Some (Registers.d_prime x))
       (Some (Registers.e_prime x)) (Some (Registers.h_prime x))
       (Some (Registers.l_prime x))
       (Some (Registers.i x)) (Some (Registers.r x))
       (Some (Registers.ix x)) (Some (Registers.iy x))
       (Some (Registers.sp x)) (Some (Registers.pc x))
       (Some (Registers.flags x)) (Some (Registers.flags_prime x))))
    (Some (StateFlags.mk
       (Some (Flags.s f)) (Some (Flags.z f)) (Some (Flags.h f))
       (Some (Flags.pv f)) (Some (Flags.n f)) (Some (Flags.c f))))
    (Some (Snapshot.pc snap)) (Some (Snapshot.sp snap))
    (Some (Snapshot.halted snap)) (Some (Snapshot.interruptsEnabled snap)).

(** The empty argument [{}]. *)
Definition state_empty : State.t := State.mk None None None None None None.

(** ** Sequences of calls

    A client drives the machine by calling its methods one after the other;
    results that are not the machine itself are dropped here. *)
Inductive call : Type :=
  | Call_setBC (value : Z)
  | Call_setDE (value : Z)
  | Call_setHL (value : Z)
  | Call_setF (value : Z)
  | Call_exchangeRegisterSets
  | Call_writeByte (address value : Z)
  | Call_writeWord (address value : Z)
  | Call_pushStack (value : Z)
  | Call_popStack
  | Call_reset
  | Call_loadProgram (program : list Z) (startAddress : Z)
  | Call_setBreakpoint (address : Z)
  | Call_clearBreakpoint (address : Z)
  | Call_toggleBreakpoint (address : Z)
  | Call_clearAllBreakpoints
  | Call_step
  | Call_debug
  | Call_getState
  | Call_setState (state : State.t).

Definition perform (c : call) (s : Z80Core * Heap) : Z80Core * Heap :=
  let (this, σ) := s in
  match c with
  | Call_setBC v => (setBC v this, σ)
  | Call_setDE v => (setDE v this, σ)
  | Call_setHL v => (setHL v this, σ)
  | Call_setF v => (this, setF v this σ)
  | Call_exchangeRegisterSets => (exchangeRegisterSets this, σ)
  | Call_writeByte a v => (writeByte a v this, σ)
  | Call_writeWord a v => (writeWord a v this, σ)
  | Call_pushStack v => (pushStack v this, σ)
  | Call_popStack => (snd (popStack this), σ)
  | Call_reset => reset this σ
  | Call_loadProgram program a => (loadProgram program a this, σ)
  | Call_setBreakpoint a => (setBreakpoint a this, σ)
  | Call_clearBreakpoint a => (clearBreakpoint a this, σ)
  | Call_toggleBreakpoint a => (snd (toggleBreakpoint a this), σ)
  | Call_clearAllBreakpoints => (clearAllBreakpoints this, σ)
  | Call_step => (snd (step this), σ)
  | Call_debug => (snd (debug this), σ)
  | Call_getState => (this, snd (getState this σ))
  | Call_setState state => setState state this σ
  end.

(** What [setState] is given, when its caller keeps to the widths: numbers
    under [registers] within the width of their register, flag values 0 or
    1, and under [registers.flags], [registers.flags_prime] references to
    flags objects of the store that hold flag assignments.  The top-level
    [pc] and [sp] are free: [setState] masks them. *)
Definition opt_ok {A : Type} (P : A -> Prop) (o : option A) : Prop :=
  match o with
  | Some v => P v
  | None => True
  end.

Definition ref_ok (σ : Heap) (p : ref) : Prop :=
  (p < length σ)%nat /\ flags_ok (deref σ p).

Definition state_registers_ok (σ : Heap) (s : StateRegisters.t) : Prop :=
  (opt_ok is_byte (StateRegisters.a s) /\ opt_ok is_byte (StateRegisters.b s) /\
   opt_ok is_byte (StateRegisters.c s) /\ opt_ok is_byte (StateRegisters.d s) /\
   opt_ok is_byte (StateRegisters.e s) /\ opt_ok is_byte (StateRegisters.h s) /\
   opt_ok is_byte (StateRegisters.l s)) /\
  (opt_ok is_byte (StateRegisters.a_prime s) /\ opt_ok is_byte (StateRegisters.b_prime s) /\
   opt_ok is_byte (StateRegisters.c_prime s) /\ opt_ok is_byte (StateRegisters.d_prime s) /\
   opt_ok is_byte (StateRegisters.e_prime s) /\ opt_ok is_byte (StateRegisters.h_prime s) /\
   opt_ok is_byte (StateRegisters.l_prime s)) /\
  (opt_ok is_byte (StateRegisters.i s) /\ opt_ok is_byte (StateRegisters.r s)) /\
  (opt_ok is_word (StateRegisters.ix s) /\ opt_ok is_word (StateRegisters.iy s) /\
   opt_ok is_word (StateRegisters.sp s) /\ opt_ok is_word (StateRegisters.pc s)) /\
  (opt_ok (ref_ok σ) (StateRegisters.flags s) /\
   opt_ok (ref_ok σ) (StateRegisters.flags_prime s)).

Definition state_flags_ok (s : StateFlags.t) : Prop :=
  opt_ok is_bit (StateFlags.s s) /\ opt_ok is_bit (StateFlags.z s) /\
  opt_ok is_bit (StateFlags.h s) /\ opt_ok is_bit (StateFlags.pv s) /\
  opt_ok is_bit (StateFlags.n s) /\ opt_ok is_bit (StateFlags.c s).

Definition state_ok (σ : Heap) (state : State.t) : Prop :=
  opt_ok (state_registers_ok σ) (State.registers state) /\
  opt_ok state_flags_ok (State.flags state).

Definition call_ok (c : call) (s : Z80Core * Heap) : Prop :=
  match c with
  | Call_setState state => state_ok (snd s) state
  | _ => True
  end.

(** The invariant of the machine: registers within their widths, memory
    cells bytes, the two flags references pointing at flag assignments. *)
Definition machine_ok (s : Z80Core * Heap) : Prop :=
  registers_ok (registers (fst s)) /\
  memory_ok (fst s) /\
  ref_ok (snd s) (Registers.flags (registers (fst s))) /\
  ref_ok (snd s) (Registers.flags_prime (registers (fst s))).

Fixpoint performs (cs : list call) (s : Z80Core * Heap) : Z80Core * Heap :=
  match cs with
  | [] => s
  | c :: cs => performs cs (perform c s)
  end.

Fixpoint calls_ok (cs : list call) (s : Z80Core * Heap) : Prop :=
  match cs with
  | [] => True
  | c :: cs => call_ok c s /\ calls_ok cs (perform c s)
  end.

(** ** Auxiliary definitions for the further properties *)

(** The two exits of the loop of [run]: the machine is halted, or its PC
    is a breakpoint. *)
Definition stops (this : Z80Core) : bool :=
  halted this || bool_decide (Registers.pc (registers this) ∈ breakpoints this).

(** The machine [run] leaves when its loop exits on [this]: [isDebugging]
    is set on the breakpoint exit only. *)
Definition stopped_machine (this : Z80Core) : Z80Core :=
  if halted this then this else with_isDebugging true this.

(** A machine with A, PC and [halted] replaced. *)
Definition with_a_pc_halted (a' pc' : Z) (halted' : bool) (this : Z80Core) : Z80Core :=
  with_halted halted'
    (with_registers (fun r => Registers.set_a a' (Registers.set_pc pc' r)) this).


(** * Verification *)

(** Membership in a concrete breakpoint set, by evaluation. *)
Ltac by_evaluation :=
  refine (bool_decide_unpack _ _); vm_compute; exact I.

(** ** Bit-level facts used throughout *)

Section Bits.

Lemma land_0xFF (x : Z) : Z.land x 0xFF = x mod 256.
Proof. change 0xFF with (Z.ones 8). now rewrite Z.land_ones. Qed.

Lemma land_0xFFFF (x : Z) : Z.land x 0xFFFF = x mod 65536.
Proof. change 0xFFFF with (Z.ones 16). now rewrite Z.land_ones. Qed.

Lemma shiftr_8 (x : Z) : Z.shiftr x 8 = x / 256.
Proof. now rewrite Z.shiftr_div_pow2. Qed.

(** [(hi << k) | lo] is [hi * 2^k + lo] when [lo] fits in [k] bits. *)
Lemma lor_shiftl_low (hi lo k : Z) :
  0 <= k -> 0 <= lo < 2 ^ k -> Z.lor (Z.shiftl hi k) lo = hi * 2 ^ k + lo.
Proof.
  intros Hk Hlo.
  assert (Hdisj : Z.land (Z.shiftl hi k) lo = 0).
  { apply Z.bits_inj'; intros n Hn.
    rewrite Z.land_spec, Z.bits_0.
    destruct (Z_lt_le_dec n k) as [Hlt | Hge].
    - rewrite Z.shiftl_spec_low; auto.
    - rewrite <- (Z.mod_small lo (2 ^ k)) by lia.
      rewrite Z.mod_pow2_bits_high by lia.
      apply andb_false_r. }
  rewrite <- Z.lxor_lor by exact Hdisj.
  rewrite <- Z.add_nocarry_lxor by exact Hdisj.
  now rewrite Z.shiftl_mul_pow2.
Qed.

Lemma word_of_bytes (v : Z) :
  Z.lor (Z.shiftl ((v / 256) mod 256) 8) (v mod 256) = v mod 65536.
Proof.
  rewrite lor_shiftl_low; [ | lia | change (2 ^ 8) with 256; apply Z.mod_pos_bound; lia ].
  change (2 ^ 8) with 256.
  change 65536 with (256 * 256).
  rewrite Z.rem_mul_r by lia. lia.
Qed.

Lemma succ_mod_neq (a : Z) : a mod 65536 <> (a + 1) mod 65536.
Proof.
  intros Heq.
  pose proof (Z.mod_pos_bound a 65536 ltac:(lia)).
  pose proof (Z.mod_pos_bound (a + 1) 65536 ltac:(lia)).
  pose proof (Z.div_mod a 65536 ltac:(lia)).
  pose proof (Z.div_mod (a + 1) 65536 ltac:(lia)).
  lia.
Qed.

End Bits.

(** ** MemoryBus *)

Section MemoryBus.

Variable this : Z80Core.

Lemma readByte_writeByte_eq (a v : Z) :
  readByte a (writeByte a v this) = v mod 256.
Proof.
  unfold readByte, writeByte; cbn.
  now rewrite fn_lookup_insert, land_0xFF.
Qed.

Lemma memory_writeByte (a v x : Z) :
  memory (writeByte a v this) x =
  if decide (a mod 65536 = x) then v mod 256 else memory this x.
Proof.
  unfold writeByte; cbn. rewrite land_0xFFFF, land_0xFF.
  destruct (decide (a mod 65536 = x)) as [<- | Hne].
  - apply fn_lookup_insert.
  - now apply fn_lookup_insert_ne.
Qed.

Lemma registers_writeByte (a v : Z) :
  registers (writeByte a v this) = registers this.
Proof. reflexivity. Qed.

End MemoryBus.

Lemma memory_writeWord (this : Z80Core) (a v x : Z) :
  memory (writeWord a v this) x =
  if decide ((a + 1) mod 65536 = x) then (v / 256) mod 256
  else if decide (a mod 65536 = x) then v mod 256
  else memory this x.
Proof.
  unfold writeWord. rewrite !memory_writeByte.
  rewrite !land_0xFFFF, !land_0xFF, shiftr_8, !Z.mod_mod by lia.
  reflexivity.
Qed.

Lemma readWord_memory (this : Z80Core) (a : Z) :
  readWord a this =
  Z.lor (Z.shiftl (memory this ((a + 1) mod 65536)) 8) (memory this (a mod 65536)).
Proof.
  unfold readWord, readByte.
  now rewrite !land_0xFFFF, Z.mod_mod by lia.
Qed.

Lemma readWord_writeWord (this : Z80Core) (a v : Z) :
  readWord a (writeWord a v this) = v mod 65536.
Proof.
  rewrite readWord_memory, !memory_writeWord.
  rewrite decide_True by reflexivity.
  rewrite decide_False by (intros H; symmetry in H; revert H; apply succ_mod_neq).
  rewrite decide_True by reflexivity.
  apply word_of_bytes.
Qed.

(** C7.  For every address [a] and value [v], [readWord(a)] after
    [writeWord(a, v)] returns [v mod 65536]; the word is stored
    little-endian, the low byte in cell [a mod 65536] and the high byte in
    cell [(a + 1) mod 65536]; for [a = 0xFFFF] the high byte is in cell
    [0x0000]. *)
Theorem writeWord_readWord_roundtrip (this : Z80Core) (a v : Z) :
  readWord a (writeWord a v this) = v mod 65536 /\
  memory (writeWord a v this) (a mod 65536) = v mod 256 /\
  memory (writeWord a v this) ((a + 1) mod 65536) = (v / 256) mod 256 /\
  memory (writeWord 0xFFFF v this) 0xFFFF = v mod 256 /\
  memory (writeWord 0xFFFF v this) 0x0000 = (v / 256) mod 256 /\
  readWord 0xFFFF (writeWord 0xFFFF v this) = v mod 65536.
Proof.
  repeat split.
  - apply readWord_writeWord.
  - rewrite memory_writeWord.
    rewrite decide_False by (intros H; symmetry in H; revert H; apply succ_mod_neq).
    now rewrite decide_True.
  - rewrite memory_writeWord. now rewrite decide_True.
  - rewrite memory_writeWord. reflexivity.
  - rewrite memory_writeWord. reflexivity.
  - apply readWord_writeWord.
Qed.

(** ** Stack *)

Lemma sp_pushStack (this : Z80Core) (v : Z) :
  Registers.sp (registers (pushStack v this)) =
  (Registers.sp (registers this) - 2) mod 65536.
Proof. unfold pushStack, writeWord; cbn. apply land_0xFFFF. Qed.

Lemma readWord_pushStack (this : Z80Core) (v : Z) :
  readWord (Registers.sp (registers (pushStack v this))) (pushStack v this) =
  v mod 65536.
Proof.
  unfold pushStack.
  set (this' := with_registers _ this).
  change (registers (writeWord (Registers.sp (registers this')) v this'))
    with (registers this').
  apply readWord_writeWord.
Qed.

(** C9.  [pushStack(v)] followed by [popStack()] returns [v mod 65536] and
    leaves SP at the 16-bit value it had before the push, whatever that
    value is: also for SP = 0 and SP = 1, where the decrement wraps, and
    for SP = 1, where the pushed word straddles 0xFFFF/0x0000. *)
Theorem pushStack_popStack (this : Z80Core) (v : Z) :
  0 <= Registers.sp (registers this) < 65536 ->
  fst (popStack (pushStack v this)) = v mod 65536 /\
  Registers.sp (registers (snd (popStack (pushStack v this)))) =
  Registers.sp (registers this).
Proof.
  intros Hsp. split.
  - unfold popStack; cbn [fst]. apply readWord_pushStack.
  - unfold popStack; cbn [snd with_registers registers Registers.sp Registers.set_sp].
    rewrite sp_pushStack, land_0xFFFF.
    rewrite Zplus_mod_idemp_l.
    replace (Registers.sp (registers this) - 2 + 2)
      with (Registers.sp (registers this)) by lia.
    now apply Z.mod_small.
Qed.

(** The round trip at SP = 1 on a fresh machine: SP becomes 0xFFFF, the low
    byte goes to 0xFFFF and the high byte to 0x0000. *)
Lemma pushStack_popStack_witness :
  let this := with_registers (Registers.set_sp 1) (fst constructor) in
  0 <= Registers.sp (registers this) < 65536 /\
  fst (popStack (pushStack 0x1ABCD this)) = 0x1ABCD mod 65536 /\
  Registers.sp (registers (snd (popStack (pushStack 0x1ABCD this)))) =
  Registers.sp (registers this).
Proof.
  intros this.
  assert (Hsp : 0 <= Registers.sp (registers this) < 65536) by (cbn; lia).
  split; [exact Hsp | exact (pushStack_popStack this 0x1ABCD Hsp)].
Defined.

Example pushStack_wraps :
  let this := pushStack 0xBEEF (with_registers (Registers.set_sp 1) (fst constructor)) in
  Registers.sp (registers this) = 0xFFFF /\
  memory this 0xFFFF = 0xEF /\ memory this 0x0000 = 0xBE.
Proof. repeat split. Qed.

(** ** The flags register: packing and unpacking *)

Section FlagsRegister.

Lemma getF_pack (this : Z80Core) (σ : Heap) :
  getF this σ = pack (deref σ (Registers.flags (registers this))).
Proof. reflexivity. Qed.

Lemma setF_alter (value : Z) (this : Z80Core) (σ : Heap) :
  setF value this σ = alter (unpack value) (Registers.flags (registers this)) σ.
Proof.
  unfold setF, write_flag. now rewrite !list_alter_alter_eq.
Qed.

Lemma deref_alter_eq (g : Flags.t -> Flags.t) (p : ref) (σ : Heap) :
  (p < length σ)%nat -> deref (alter g p σ) p = g (deref σ p).
Proof.
  intros Hp. unfold deref. rewrite list_lookup_alter_eq.
  destruct (lookup_lt_is_Some_2 σ p Hp) as [f ->]. reflexivity.
Qed.

Lemma deref_alter_ne (g : Flags.t -> Flags.t) (p q : ref) (σ : Heap) :
  p <> q -> deref (alter g p σ) q = deref σ q.
Proof. intros Hne. unfold deref. now rewrite list_lookup_alter_ne. Qed.

Lemma alter_fixed (g : Flags.t -> Flags.t) (p : ref) (σ : Heap) :
  g (deref σ p) = deref σ p -> alter g p σ = σ.
Proof.
  intros Hfix. apply list_eq; intros q.
  destruct (decide (p = q)) as [<- | Hne].
  - rewrite list_lookup_alter_eq. unfold deref in Hfix.
    destruct (σ !! p) as [f | ]; cbn in *; congruence.
  - now rewrite list_lookup_alter_ne.
Qed.

(** [value & 2^k] is [2^k] or [0], by bit [k] of [value]. *)
Lemma land_pow2 (value k : Z) :
  0 <= k -> Z.land value (2 ^ k) = if Z.testbit value k then 2 ^ k else 0.
Proof.
  intros Hk. apply Z.bits_inj'; intros n Hn.
  rewrite Z.land_spec, Z.pow2_bits_eqb by exact Hk.
  destruct (Z.eqb_spec k n) as [-> | Hne].
  - destruct (Z.testbit value n) eqn:Hb.
    + now rewrite Z.pow2_bits_true.
    + now rewrite Z.bits_0.
  - rewrite andb_false_r.
    destruct (Z.testbit value k).
    + now rewrite Z.pow2_bits_false.
    + now rewrite Z.bits_0.
Qed.

Lemma shiftl_shiftr_land_pow2 (value k : Z) :
  0 <= k -> Z.shiftl (Z.shiftr (Z.land value (2 ^ k)) k) k = Z.land value (2 ^ k).
Proof.
  intros Hk. rewrite land_pow2 by exact Hk.
  destruct (Z.testbit value k).
  - rewrite Z.shiftr_div_pow2, Z.shiftl_mul_pow2 by exact Hk.
    rewrite Z.div_same by (apply Z.pow_nonzero; lia). lia.
  - now rewrite Z.shiftr_0_l, Z.shiftl_0_l.
Qed.

Lemma is_bit_shiftr_land_pow2 (value k : Z) :
  0 <= k -> is_bit (Z.shiftr (Z.land value (2 ^ k)) k).
Proof.
  intros Hk. rewrite land_pow2 by exact Hk.
  destruct (Z.testbit value k).
  - right. rewrite Z.shiftr_div_pow2 by exact Hk.
    apply Z.div_same, Z.pow_nonzero; lia.
  - left. apply Z.shiftr_0_l.
Qed.

Lemma unpack_mk (value : Z) (f : Flags.t) :
  unpack value f =
  Flags.mk (Z.shiftr (Z.land value (2 ^ 7)) 7) (Z.shiftr (Z.land value (2 ^ 6)) 6)
           (Z.shiftr (Z.land value (2 ^ 4)) 4) (Z.shiftr (Z.land value (2 ^ 2)) 2)
           (Z.shiftr (Z.land value (2 ^ 1)) 1) (Z.land value (2 ^ 0)).
Proof. reflexivity. Qed.

Lemma pack_unpack (value : Z) (f : Flags.t) :
  pack (unpack value f) = Z.land value 0xD7.
Proof.
  rewrite unpack_mk. unfold pack.
  cbn [Flags.s Flags.z Flags.h Flags.pv Flags.n Flags.c].
  rewrite !shiftl_shiftr_land_pow2 by lia.
  rewrite <- !Z.land_lor_distr_r.
  reflexivity.
Qed.

Lemma flags_ok_unpack (value : Z) (f : Flags.t) : flags_ok (unpack value f).
Proof.
  rewrite unpack_mk. unfold flags_ok.
  cbn [Flags.s Flags.z Flags.h Flags.pv Flags.n Flags.c].
  repeat split; try (apply is_bit_shiftr_land_pow2; lia).
  rewrite <- (Z.shiftr_0_r (Z.land value (2 ^ 0))).
  apply is_bit_shiftr_land_pow2; lia.
Qed.

Lemma unpack_pack (f : Flags.t) : flags_ok f -> unpack (pack f) f = f.
Proof.
  destruct f as [s z h pv n c]; unfold flags_ok, is_bit; cbn.
  intros ([-> | ->] & [-> | ->] & [-> | ->] & [-> | ->] & [-> | ->] & [-> | ->]);
    reflexivity.
Qed.

Lemma pack_unused_bits (f : Flags.t) :
  flags_ok f -> Z.testbit (pack f) 3 = false /\ Z.testbit (pack f) 5 = false.
Proof.
  destruct f as [s z h pv n c]; unfold flags_ok, is_bit; cbn.
  intros ([-> | ->] & [-> | ->] & [-> | ->] & [-> | ->] & [-> | ->] & [-> | ->]);
    split; reflexivity.
Qed.

End FlagsRegister.

(** C6.  On a machine whose flags object is a flag assignment,
    [setF(getF())] leaves the store (hence the flags) as it was and bits 3
    and 5 of [getF()] are 0; from any state, [getF()] after [setF(b)] is
    [b & 0xD7], the six defined bit positions 7, 6, 4, 2, 1, 0 of [b], and
    its bits 3 and 5 are 0. *)
Theorem getF_setF_roundtrip (this : Z80Core) (σ : Heap) (b : Z) :
  valid this σ ->
  (flags_ok (deref σ (Registers.flags (registers this))) ->
     setF (getF this σ) this σ = σ /\
     Z.testbit (getF this σ) 3 = false /\ Z.testbit (getF this σ) 5 = false) /\
  getF this (setF b this σ) = Z.land b 0xD7 /\
  Z.testbit (getF this (setF b this σ)) 3 = false /\
  Z.testbit (getF this (setF b this σ)) 5 = false.
Proof.
  intros [Hp _].
  assert (Hget : getF this (setF b this σ) = Z.land b 0xD7).
  { rewrite getF_pack, setF_alter, deref_alter_eq by exact Hp.
    apply pack_unpack. }
  split; [ | rewrite Hget; repeat split ].
  - intros Hok. rewrite getF_pack. split.
    + rewrite setF_alter. apply alter_fixed. now apply unpack_pack.
    + now apply pack_unused_bits.
  - rewrite Z.land_spec. apply andb_false_r.
  - rewrite Z.land_spec. apply andb_false_r.
Qed.

Lemma getF_setF_roundtrip_witness :
  let this := fst constructor in
  let σ := setF 0xA5 this (snd constructor) in
  valid this σ /\
  flags_ok (deref σ (Registers.flags (registers this))) /\
  setF (getF this σ) this σ = σ /\
  getF this (setF 0xFF this σ) = 0xD7.
Proof.
  intros this σ.
  assert (Hv : valid this σ) by (split; cbn; lia).
  assert (Hok : flags_ok (deref σ (Registers.flags (registers this))))
    by (cbv; tauto).
  destruct (getF_setF_roundtrip this σ 0xFF Hv) as (Hfix & Hget & _).
  destruct (Hfix Hok) as (Hset & _).
  exact (conj Hv (conj Hok (conj Hset Hget))).
Defined.

(** ** ExecutionEngine: [step] *)

Section Step.

Variable this : Z80Core.

Lemma step_halted : halted this = true -> step this = (false, this).
Proof. intros H. unfold step. now rewrite H. Qed.

Lemma step_running :
  halted this = false ->
  step this =
  (true, executeInstruction (readByte (Registers.pc (registers this)) this) (fetched this)).
Proof.
  intros H. unfold step, fetched. rewrite H.
  unfold with_registers at 1. now rewrite land_0xFFFF.
Qed.

Lemma step_nop :
  halted this = false ->
  readByte (Registers.pc (registers this)) this = 0x00 ->
  step this = (true, fetched this).
Proof. intros H Hop. rewrite step_running by exact H. now rewrite Hop. Qed.

Lemma step_halt :
  halted this = false ->
  readByte (Registers.pc (registers this)) this = 0x76 ->
  step this = (true, with_halted true (fetched this)).
Proof. intros H Hop. rewrite step_running by exact H. now rewrite Hop. Qed.

Lemma step_other :
  halted this = false ->
  readByte (Registers.pc (registers this)) this <> 0x00 ->
  readByte (Registers.pc (registers this)) this <> 0x3E ->
  readByte (Registers.pc (registers this)) this <> 0x76 ->
  step this = (true, fetched this).
Proof.
  intros H H0 H1 H2. rewrite step_running by exact H.
  unfold executeInstruction.
  destruct (Z.eqb_spec (readByte (Registers.pc (registers this)) this) 0x00);
    [contradiction | ].
  destruct (Z.eqb_spec (readByte (Registers.pc (registers this)) this) 0x3E);
    [contradiction | ].
  destruct (Z.eqb_spec (readByte (Registers.pc (registers this)) this) 0x76);
    [contradiction | ].
  reflexivity.
Qed.

End Step.

Lemma steps_halted (n : nat) (this : Z80Core) :
  halted this = true -> steps n this = this.
Proof.
  intros H. induction n as [ | n IH]; [reflexivity | ].
  change (steps (S n) this) with (snd (step (steps n this))).
  rewrite IH. now rewrite step_halted.
Qed.

(** C5.  With the HALT opcode 0x76 at PC, [step()] on a running machine
    returns true and sets [halted]; each later [step()], after any number
    of further calls, returns false and gives back the machine it was
    given, every field as it was, so that in any store the live machine,
    flags and shadow flags included, reads as before ([step] itself does
    not take the store).  On any running machine [step()] returns true. *)
Theorem step_HALT_then_inert (this : Z80Core) (n : nat) :
  halted this = false ->
  readByte (Registers.pc (registers this)) this = 0x76 ->
  fst (step this) = true /\
  halted (snd (step this)) = true /\
  step (steps n (snd (step this))) = (false, snd (step this)) /\
  (forall σ : Heap,
     live (snd (step (steps n (snd (step this))))) σ = live (snd (step this)) σ) /\
  (forall other : Z80Core, halted other = false -> fst (step other) = true) /\
  (forall other : Z80Core, halted other = true -> step other = (false, other)).
Proof.
  intros Hrun Hop.
  rewrite (step_halt this Hrun Hop). cbn [fst snd].
  assert (Hinert : step (steps n (with_halted true (fetched this))) =
                   (false, with_halted true (fetched this))).
  { rewrite steps_halted by reflexivity. now apply step_halted. }
  repeat split.
  - exact Hinert.
  - intros σ. now rewrite Hinert.
  - intros other Hother. now rewrite step_running.
  - intros other Hother. now apply step_halted.
Qed.

(** The scenario of the specification: HALT at 0x0000, reset, step, then
    three more calls of step. *)
Lemma step_HALT_then_inert_witness :
  let this := fst (reset (writeByte 0x0000 0x76 (fst constructor)) (snd constructor)) in
  halted this = false /\
  readByte (Registers.pc (registers this)) this = 0x76 /\
  halted (snd (step this)) = true /\
  step (steps 3 (snd (step this))) = (false, snd (step this)).
Proof.
  intros this.
  assert (Hrun : halted this = false) by reflexivity.
  assert (Hop : readByte (Registers.pc (registers this)) this = 0x76) by reflexivity.
  destruct (step_HALT_then_inert this 3 Hrun Hop) as (_ & Hh & Hs & _).
  exact (conj Hrun (conj Hop (conj Hh Hs))).
Defined.

(** C8.  On a running machine whose opcode at PC is none of 0x00, 0x3E,
    0x76, [step()] returns true and the machine it leaves is the one it
    was given with PC replaced by [(PC + 1) mod 65536]: the other
    registers, the memory, [halted] and the remaining fields are the same,
    and in any store the flags and the shadow flags read as before ([step]
    itself does not take the store). *)
Theorem step_unknown_opcode (this : Z80Core) :
  halted this = false ->
  readByte (Registers.pc (registers this)) this <> 0x00 ->
  readByte (Registers.pc (registers this)) this <> 0x3E ->
  readByte (Registers.pc (registers this)) this <> 0x76 ->
  step this =
  (true,
   with_registers
     (Registers.set_pc ((Registers.pc (registers this) + 1) mod 65536)) this) /\
  memory (snd (step this)) = memory this /\
  halted (snd (step this)) = false /\
  (forall σ : Heap,
     deref σ (Registers.flags (registers (snd (step this)))) =
     deref σ (Registers.flags (registers this)) /\
     deref σ (Registers.flags_prime (registers (snd (step this)))) =
     deref σ (Registers.flags_prime (registers this))).
Proof.
  intros Hrun H0 H1 H2.
  rewrite (step_other this Hrun H0 H1 H2). cbn [snd].
  split; [reflexivity | ].
  split; [reflexivity | ].
  split; [exact Hrun | ].
  intros σ. split; reflexivity.
Qed.

(** Opcode 0xFF at PC = 0xFFFF: PC wraps to 0. *)
Lemma step_unknown_opcode_witness :
  let this :=
    with_registers (Registers.set_pc 0xFFFF)
      (writeByte 0xFFFF 0xFF (fst constructor)) in
  halted this = false /\
  readByte (Registers.pc (registers this)) this = 0xFF /\
  step this = (true, with_registers (Registers.set_pc 0) this).
Proof.
  intros this.
  assert (Hrun : halted this = false) by reflexivity.
  assert (Hop : readByte (Registers.pc (registers this)) this = 0xFF) by reflexivity.
  assert (H0 : readByte (Registers.pc (registers this)) this <> 0x00)
    by (rewrite Hop; discriminate).
  assert (H1 : readByte (Registers.pc (registers this)) this <> 0x3E)
    by (rewrite Hop; discriminate).
  assert (H2 : readByte (Registers.pc (registers this)) this <> 0x76)
    by (rewrite Hop; discriminate).
  destruct (step_unknown_opcode this Hrun H0 H1 H2) as (Hs & _).
  exact (conj Hrun (conj Hop Hs)).
Defined.

(** ** ExecutionEngine: [run] *)

Section Run.

Variable this : Z80Core.
Variables (fuel steps_so_far : nat).

Lemma run_loop_halted :
  halted this = true ->
  run_loop (S fuel) steps_so_far this = Some (steps_so_far, this).
Proof. intros H. cbn [run_loop]. now rewrite H. Qed.

Lemma run_loop_breakpoint :
  halted this = false ->
  Registers.pc (registers this) ∈ breakpoints this ->
  run_loop (S fuel) steps_so_far this =
  Some (steps_so_far, with_isDebugging true this).
Proof.
  intros H Hbp. cbn [run_loop]. rewrite H.
  now rewrite bool_decide_eq_true_2.
Qed.

Lemma run_loop_step :
  halted this = false ->
  Registers.pc (registers this) ∉ breakpoints this ->
  run_loop (S fuel) steps_so_far this =
  run_loop fuel (S steps_so_far) (snd (step this)).
Proof.
  intros H Hbp. cbn [run_loop]. rewrite H.
  now rewrite bool_decide_eq_false_2.
Qed.

End Run.

(** C3, as the code has it.  When [run()] is called on a running machine
    whose PC is in the breakpoint set, the loop stops in its first
    iteration, before any [step()]: no instruction is executed, and the
    machine is left as it was except for [isDebugging], which is true. *)
Theorem run_at_breakpoint_stops_at_once (this : Z80Core) (fuel : nat) :
  halted this = false ->
  Registers.pc (registers this) ∈ breakpoints this ->
  run (S fuel) this = Some (O, with_isDebugging true this).
Proof.
  intros H Hbp. unfold run.
  now rewrite run_loop_breakpoint.
Qed.

Lemma run_at_breakpoint_stops_at_once_witness :
  let this := setBreakpoint 0x0000 (fst constructor) in
  halted this = false /\
  Registers.pc (registers this) ∈ breakpoints this /\
  run 8 this = Some (O, with_isDebugging true this).
Proof.
  intros this.
  assert (Hrun : halted this = false) by reflexivity.
  assert (Hbp : Registers.pc (registers this) ∈ breakpoints this)
    by (by_evaluation).
  exact (conj Hrun (conj Hbp (run_at_breakpoint_stops_at_once this 7 Hrun Hbp))).
Defined.

(** C3, as the claim has it, fails.  A fresh machine with a breakpoint at
    its PC, 0x0000, and a NOP there: [step()] would move PC to 1, but
    [run()] never returns having called [step()], and it does return,
    with no call of [step()] and PC still 0. *)
Lemma run_at_breakpoint_counterexample :
  let this := setBreakpoint 0x0000 (fst constructor) in
  halted this = false /\
  Registers.pc (registers this) ∈ breakpoints this /\
  readByte (Registers.pc (registers this)) this = 0x00 /\
  Registers.pc (registers (snd (step this))) = 1 /\
  ~ (exists (fuel n : nat) (this' : Z80Core), run fuel this = Some (S n, this')) /\
  exists this' : Z80Core,
    run 8 this = Some (O, this') /\ Registers.pc (registers this') = 0.
Proof.
  intros this.
  assert (Hbp : Registers.pc (registers this) ∈ breakpoints this) by by_evaluation.
  split; [reflexivity | ].
  split; [exact Hbp | ].
  split; [reflexivity | ].
  split; [reflexivity | ].
  split.
  - intros (fuel & n & this' & Hrun). unfold run in Hrun.
    destruct fuel as [ | fuel]; [discriminate | ].
    rewrite run_loop_breakpoint in Hrun by (reflexivity || exact Hbp).
    discriminate.
  - exists (with_isDebugging true this). split; [ | reflexivity ].
    unfold run. now apply run_loop_breakpoint.
Qed.

(** ** Reset *)

Section Reset.

Variables (this : Z80Core) (σ : Heap).

Lemma memory_reset : memory (fst (reset this σ)) = memory this.
Proof. reflexivity. Qed.

Lemma breakpoints_reset : breakpoints (fst (reset this σ)) = breakpoints this.
Proof. reflexivity. Qed.

Lemma halted_reset : halted (fst (reset this σ)) = false.
Proof. reflexivity. Qed.

Lemma pc_reset : Registers.pc (registers (fst (reset this σ))) = 0.
Proof. reflexivity. Qed.

Lemma sp_reset : Registers.sp (registers (fst (reset this σ))) = 0xFFFF.
Proof. reflexivity. Qed.

Lemma clear_flags_alter (p : ref) (τ : Heap) :
  clear_flags p τ = alter (fun _ => Flags.zero) p τ.
Proof.
  unfold clear_flags, write_flag. rewrite !list_alter_alter_eq.
  apply list_alter_ext; [ | reflexivity ].
  intros [] _; reflexivity.
Qed.

Lemma deref_reset_other (q : ref) :
  q <> Registers.flags (registers this) ->
  q <> Registers.flags_prime (registers this) ->
  deref (snd (reset this σ)) q = deref σ q.
Proof.
  intros H1 H2. unfold reset.
  cbn [snd Registers.flags Registers.flags_prime Registers.set_pc Registers.set_sp].
  rewrite !clear_flags_alter.
  rewrite !deref_alter_ne by congruence. reflexivity.
Qed.

End Reset.

(** C10.  [reset()] leaves every memory cell and the breakpoint set as
    they were; of the instance fields it changes only [registers],
    [halted] and [interruptsEnabled] ([isDebugging] and [stepMode] stay
    too), and in the store it writes only the two flags objects of the
    register file. *)
Theorem reset_frame (this : Z80Core) (σ : Heap) :
  (forall address : Z,
     memory (fst (reset this σ)) address = memory this address) /\
  breakpoints (fst (reset this σ)) = breakpoints this /\
  isDebugging (fst (reset this σ)) = isDebugging this /\
  stepMode (fst (reset this σ)) = stepMode this /\
  (forall q : ref,
     q <> Registers.flags (registers this) ->
     q <> Registers.flags_prime (registers this) ->
     deref (snd (reset this σ)) q = deref σ q).
Proof.
  repeat split.
  intros q H1 H2. now apply deref_reset_other.
Qed.

(** ** The breakpoint scenario *)

Section Scenario.

Variables (this0 : Z80Core) (σ0 : Heap).

Hypothesis nop0 : memory this0 0x0000 = 0x00.
Hypothesis nop1 : memory this0 0x0001 = 0x00.
Hypothesis nop2 : memory this0 0x0002 = 0x00.
Hypothesis nop3 : memory this0 0x0003 = 0x00.
Hypothesis free0 : 0x0000 ∉ breakpoints this0.
Hypothesis free1 : 0x0001 ∉ breakpoints this0.
Hypothesis free2 : 0x0002 ∉ breakpoints this0.
Hypothesis free3 : 0x0003 ∉ breakpoints this0.
Hypothesis bp4 : 0x0004 ∈ breakpoints this0.

Lemma at_pc_0 : with_isDebugging false (fst (reset this0 σ0)) = with_isDebugging false (at_pc this0 σ0 0).
Proof. reflexivity. Qed.

Lemma run_loop_at_nop (fuel n : nat) (k : Z) (dbg : bool) :
  0 <= k < 4 ->
  run_loop (S fuel) n (with_isDebugging dbg (at_pc this0 σ0 k)) =
  run_loop fuel (S n) (with_isDebugging dbg (at_pc this0 σ0 (k + 1))).
Proof.
  intros Hk.
  assert (Hcell : memory this0 k = 0x00)
    by (assert (k = 0 \/ k = 1 \/ k = 2 \/ k = 3) as [-> | [-> | [-> | ->]]] by lia;
        assumption).
  assert (Hfree : k ∉ breakpoints this0)
    by (assert (k = 0 \/ k = 1 \/ k = 2 \/ k = 3) as [-> | [-> | [-> | ->]]] by lia;
        assumption).
  rewrite run_loop_step; [ | reflexivity | exact Hfree ].
  rewrite step_nop; [ | reflexivity | ].
  - cbn [snd]. f_equal. unfold fetched, at_pc, with_isDebugging, with_registers; cbn.
    rewrite Z.mod_small by lia. reflexivity.
  - unfold readByte; cbn. rewrite land_0xFFFF, Z.mod_small by lia. exact Hcell.
Qed.

Lemma run_scenario (fuel : nat) :
  (5 <= fuel)%nat ->
  run fuel (fst (reset this0 σ0)) =
  Some (4%nat, with_isDebugging true (at_pc this0 σ0 4)).
Proof.
  intros Hfuel.
  destruct fuel as [ | [ | [ | [ | [ | fuel]]]]]; try lia.
  unfold run. rewrite at_pc_0.
  rewrite (run_loop_at_nop _ _ 0) by lia.
  rewrite (run_loop_at_nop _ _ 1) by lia.
  rewrite (run_loop_at_nop _ _ 2) by lia.
  rewrite (run_loop_at_nop _ _ 3) by lia.
  cbn [Z.add Pos.add Pos.succ].
  rewrite run_loop_breakpoint; [reflexivity | reflexivity | exact bp4].
Qed.

End Scenario.

(** C4.  Four NOPs at 0x0000-0x0003, HALT at 0x0004, a breakpoint at
    0x0004 and none at 0x0000-0x0003: after [reset()], [run()] returns
    (five iterations of its loop suffice) having called [step()] exactly
    four times, with PC = 0x0004 and [halted] false; the HALT at the
    breakpoint has not been executed. *)
Theorem run_stops_before_breakpoint (this0 : Z80Core) (σ0 : Heap) (fuel : nat) :
  memory this0 0x0000 = 0x00 -> memory this0 0x0001 = 0x00 ->
  memory this0 0x0002 = 0x00 -> memory this0 0x0003 = 0x00 ->
  memory this0 0x0004 = 0x76 ->
  0x0000 ∉ breakpoints this0 -> 0x0001 ∉ breakpoints this0 ->
  0x0002 ∉ breakpoints this0 -> 0x0003 ∉ breakpoints this0 ->
  0x0004 ∈ breakpoints this0 ->
  (5 <= fuel)%nat ->
  exists this' : Z80Core,
    run fuel (fst (reset this0 σ0)) = Some (4%nat, this') /\
    Registers.pc (registers this') = 0x0004 /\
    halted this' = false /\
    readByte (Registers.pc (registers this')) this' = 0x76 /\
    memory this' = memory this0.
Proof.
  intros N0 N1 N2 N3 Hhalt F0 F1 F2 F3 B4 Hfuel.
  exists (with_isDebugging true (at_pc this0 σ0 4)).
  split; [ now apply run_scenario | ].
  repeat split. exact Hhalt.
Qed.

(** The scenario from a fresh machine: [setBreakpoint(4)],
    [loadProgram([0, 0, 0, 0, 0x76], 0)], [reset()], [run()]. *)
Lemma run_stops_before_breakpoint_witness :
  let this0 :=
    loadProgram [0x00; 0x00; 0x00; 0x00; 0x76] 0x0000
      (setBreakpoint 0x0004 (fst constructor)) in
  let σ0 := snd constructor in
  exists this' : Z80Core,
    run 5 (fst (reset this0 σ0)) = Some (4%nat, this') /\
    Registers.pc (registers this') = 0x0004 /\
    halted this' = false /\
    readByte (Registers.pc (registers this')) this' = 0x76 /\
    memory this' = memory this0.
Proof.
  intros this0 σ0.
  refine (run_stops_before_breakpoint this0 σ0 5
            eq_refl eq_refl eq_refl eq_refl eq_refl _ _ _ _ _ (le_n 5)).
  - refine (bool_decide_unpack _ _); vm_compute; exact I.
  - refine (bool_decide_unpack _ _); vm_compute; exact I.
  - refine (bool_decide_unpack _ _); vm_compute; exact I.
  - refine (bool_decide_unpack _ _); vm_compute; exact I.
  - refine (bool_decide_unpack _ _); vm_compute; exact I.
Defined.

(** ** StateSnapshot: [getState] *)

Section GetState.

Variables (this : Z80Core) (σ : Heap).
Hypothesis Hvalid : valid this σ.

Local Abbreviation snap := (fst (getState this σ)).
Local Abbreviation σ1 := (snd (getState this σ)).

Lemma deref_getState (p : ref) : (p < length σ)%nat -> deref σ1 p = deref σ p.
Proof.
  intros Hp. unfold σ1, getState, deref; cbn [snd].
  now rewrite lookup_app_l.
Qed.

(** The top-level [flags] of the snapshot is a copy in a fresh object. *)
Lemma snapshot_flags_fresh :
  Snapshot.flags snap <> Registers.flags (registers this) /\
  Snapshot.flags snap <> Registers.flags_prime (registers this) /\
  deref σ1 (Snapshot.flags snap) = deref σ (Registers.flags (registers this)).
Proof.
  destruct Hvalid as [H1 H2]. unfold snap, σ1, getState; cbn [fst snd Snapshot.flags].
  repeat split; try lia.
  unfold deref at 1. rewrite lookup_app_r by lia.
  now rewrite Nat.sub_diag.
Qed.

(** The snapshot carries the values of the live machine. *)
Lemma snapshot_values :
  Snapshot.registers snap = registers this /\
  Snapshot.pc snap = Registers.pc (registers this) /\
  Snapshot.sp snap = Registers.sp (registers this) /\
  Snapshot.halted snap = halted this /\
  Snapshot.interruptsEnabled snap = interruptsEnabled this.
Proof. repeat split. Qed.

(** Taking the snapshot does not change the live machine. *)
Lemma live_getState : live this σ1 = live this σ.
Proof.
  destruct Hvalid as [H1 H2]. unfold live.
  now rewrite !deref_getState.
Qed.

(** Assignments to properties of the snapshot or of its [registers]
    object, and writes into its top-level [flags] object, do not reach
    the live machine. *)
Lemma snapshot_own_parts_independent (μ : mutation) :
  match μ with
  | M_assign _ | M_flags _ _ => live this (snd (mutate μ snap σ1)) = live this σ
  | M_registers_flags _ _ | M_registers_flags_prime _ _ => True
  end.
Proof.
  destruct μ as [f | k v | k v | k v]; try exact I.
  - cbn [mutate snd]. apply live_getState.
  - cbn [mutate snd].
    destruct snapshot_flags_fresh as (Hf & Hfp & _).
    unfold live, write_flag.
    rewrite !deref_alter_ne by congruence.
    apply live_getState.
Qed.

End GetState.

(** A write through [snapshot.registers.flags] lands in the live flags
    object, and one through [snapshot.registers.flags_prime] in the live
    shadow flags object. *)
Lemma snapshot_registers_flags_shared (this : Z80Core) (σ : Heap) (k : Flags.key) (v : Z) :
  valid this σ ->
  let snap := fst (getState this σ) in
  let σ1 := snd (getState this σ) in
  deref (snd (mutate (M_registers_flags k v) snap σ1))
        (Registers.flags (registers this)) =
  Flags.set k v (deref σ (Registers.flags (registers this))) /\
  deref (snd (mutate (M_registers_flags_prime k v) snap σ1))
        (Registers.flags_prime (registers this)) =
  Flags.set k v (deref σ (Registers.flags_prime (registers this))).
Proof.
  intros [H1 H2] snap σ1. cbn [mutate snd]. unfold write_flag.
  assert (Hlen : length σ1 = S (length σ))
    by (unfold σ1, getState; cbn [snd]; rewrite length_app; cbn; lia).
  change (Snapshot.registers snap) with (registers this).
  split.
  - rewrite deref_alter_eq by lia.
    f_equal. now apply deref_getState.
  - rewrite deref_alter_eq by lia.
    f_equal. now apply deref_getState.
Qed.

(** C1 fails on the code.  On a fresh machine, take a snapshot and assign
    1 to [snapshot.registers.flags.s]: the live sign flag, 0 before, is 1
    after, and [getF()] goes from 0x00 to 0x80.  The same through
    [snapshot.registers.flags_prime] changes the live shadow flags. *)
Theorem getState_snapshot_shares_flags :
  let this := fst constructor in
  let σ := snd constructor in
  let snap := fst (getState this σ) in
  let σ1 := snd (getState this σ) in
  let σ2 := snd (mutate (M_registers_flags Flags.K_s 1) snap σ1) in
  let σ3 := snd (mutate (M_registers_flags_prime Flags.K_c 1) snap σ1) in
  live this σ1 = live this σ /\
  getF this σ1 = 0x00 /\ getF this σ2 = 0x80 /\
  live this σ2 <> live this σ /\
  live this σ3 <> live this σ.
Proof.
  cbv zeta. repeat split; discriminate.
Qed.

(** ** StateSnapshot: [setState] and the width of registers *)

Section Widths.

Lemma is_byte_land (x : Z) : is_byte (Z.land x 0xFF).
Proof. rewrite land_0xFF. apply Z.mod_pos_bound. lia. Qed.

Lemma is_word_land (x : Z) : is_word (Z.land x 0xFFFF).
Proof. rewrite land_0xFFFF. apply Z.mod_pos_bound. lia. Qed.

Variable this : Z80Core.
Hypothesis Hok : registers_ok (registers this).

Lemma registers_ok_setBC (v : Z) : registers_ok (registers (setBC v this)).
Proof.
  pose proof (is_byte_land v). pose proof (is_byte_land (Z.shiftr v 8)).
  unfold registers_ok in *; cbn; tauto.
Qed.

Lemma registers_ok_setDE (v : Z) : registers_ok (registers (setDE v this)).
Proof.
  pose proof (is_byte_land v). pose proof (is_byte_land (Z.shiftr v 8)).
  unfold registers_ok in *; cbn; tauto.
Qed.

Lemma registers_ok_setHL (v : Z) : registers_ok (registers (setHL v this)).
Proof.
  pose proof (is_byte_land v). pose proof (is_byte_land (Z.shiftr v 8)).
  unfold registers_ok in *; cbn; tauto.
Qed.

Lemma registers_ok_exchangeRegisterSets :
  registers_ok (registers (exchangeRegisterSets this)).
Proof. unfold registers_ok in *; cbn; tauto. Qed.

Lemma registers_ok_pushStack (v : Z) : registers_ok (registers (pushStack v this)).
Proof.
  pose proof (is_word_land (Registers.sp (registers this) - 2)).
  unfold registers_ok in *; cbn; tauto.
Qed.

Lemma registers_ok_popStack : registers_ok (registers (snd (popStack this))).
Proof.
  pose proof (is_word_land (Registers.sp (registers this) + 2)).
  unfold registers_ok in *; cbn; tauto.
Qed.

Lemma registers_ok_step :
  memory_ok this -> registers_ok (registers (snd (step this))).
Proof.
  intros Hmem. unfold step.
  destruct (halted this); [exact Hok | ]. cbn [snd].
  pose proof (is_word_land (Registers.pc (registers this) + 1)) as Hpc.
  unfold executeInstruction.
  destruct (_ =? 0x00); [ unfold registers_ok in *; cbn; tauto | ].
  destruct (_ =? 0x3E).
  - pose proof (is_word_land (Z.land (Registers.pc (registers this) + 1) 0xFFFF + 1)).
    pose proof (Hmem (Z.land (Z.land (Registers.pc (registers this) + 1) 0xFFFF) 0xFFFF)).
    unfold registers_ok in *; cbn; tauto.
  - destruct (_ =? 0x76); unfold registers_ok in *; cbn; tauto.
Qed.

Lemma registers_ok_setState_pc (σ : Heap) (v : Z) :
  registers_ok (registers (fst (setState (state_pc v) this σ))).
Proof.
  pose proof (is_word_land v).
  unfold registers_ok in *; cbn; tauto.
Qed.

End Widths.

Lemma registers_ok_reset (this : Z80Core) (σ : Heap) :
  registers_ok (registers (fst (reset this σ))).
Proof. unfold registers_ok, is_byte, is_word; cbn; lia. Qed.

(** C2 fails on the code.  [setState] stores a value supplied under
    [state.registers] as it is: only the top-level [state.pc] and
    [state.sp] go through [& 0xFFFF].  So [setState({registers: {a: 300}})]
    leaves 300 in the 8-bit register A and
    [setState({registers: {pc: 70000}})] leaves 70000 in PC, on any
    machine, where [setState({pc: 70000})] leaves 70000 mod 65536 = 4464. *)
Theorem setState_registers_unmasked (this : Z80Core) (σ : Heap) :
  Registers.a (registers (fst (setState (state_registers_a 300) this σ))) = 300 /\
  ~ registers_ok (registers (fst (setState (state_registers_a 300) this σ))) /\
  Registers.pc (registers (fst (setState (state_registers_pc 70000) this σ))) = 70000 /\
  ~ registers_ok (registers (fst (setState (state_registers_pc 70000) this σ))) /\
  Registers.pc (registers (fst (setState (state_pc 70000) this σ))) = 4464.
Proof.
  split; [reflexivity | ].
  split; [ intros ((Ha & _) & _); unfold is_byte in Ha; cbn in Ha; lia | ].
  split; [reflexivity | ].
  split; [ intros (_ & _ & _ & _ & _ & _ & Hpc); unfold is_word in Hpc; cbn in Hpc; lia | ].
  reflexivity.
Qed.

(** * Further properties of the class *)

(** ** Register pairs *)

Lemma byte_pair_high (hi lo : Z) :
  is_byte hi -> is_byte lo ->
  Z.land (Z.shiftr (Z.lor (Z.shiftl hi 8) lo) 8) 0xFF = hi.
Proof.
  unfold is_byte. intros Hhi Hlo.
  rewrite lor_shiftl_low by (change (2 ^ 8) with 256; lia).
  change (2 ^ 8) with 256.
  rewrite shiftr_8, land_0xFF.
  rewrite Z.div_add_l by lia.
  rewrite (Z.div_small lo 256) by lia.
  rewrite Z.add_0_r. now apply Z.mod_small.
Qed.

Lemma byte_pair_low (hi lo : Z) :
  is_byte lo -> Z.land (Z.lor (Z.shiftl hi 8) lo) 0xFF = lo.
Proof.
  unfold is_byte. intros Hlo.
  rewrite lor_shiftl_low by (change (2 ^ 8) with 256; lia).
  change (2 ^ 8) with 256.
  rewrite land_0xFF, Z.add_comm, Z.mod_add by lia.
  now apply Z.mod_small.
Qed.

Lemma pair_of_halves (value : Z) :
  Z.lor (Z.shiftl (Z.land (Z.shiftr value 8) 0xFF) 8) (Z.land value 0xFF) =
  value mod 65536.
Proof. rewrite !land_0xFF, shiftr_8. apply word_of_bytes. Qed.

(** X1.  [getBC()] after [setBC(v)] is [v mod 65536], for every integer
    [v]; likewise for DE and HL. *)
Theorem get_pair_set_pair (this : Z80Core) (value : Z) :
  getBC (setBC value this) = value mod 65536 /\
  getDE (setDE value this) = value mod 65536 /\
  getHL (setHL value this) = value mod 65536.
Proof.
  repeat split; apply pair_of_halves.
Qed.

(** X2.  When the registers are within their widths, writing a pair back
    to itself changes nothing: [setBC(getBC())], [setDE(getDE())] and
    [setHL(getHL())] leave the machine as it is. *)
Theorem set_pair_get_pair (this : Z80Core) :
  registers_ok (registers this) ->
  setBC (getBC this) this = this /\
  setDE (getDE this) this = this /\
  setHL (getHL this) this = this.
Proof.
  intros ((_ & Hb & Hc & Hd & He & Hh & Hl) & _).
  destruct this as [x m hlt ie bp dbg sm].
  destruct x; cbn in *.
  unfold setBC, setDE, setHL, getBC, getDE, getHL, with_registers,
    Registers.set_bc, Registers.set_de, Registers.set_hl; cbn.
  rewrite !byte_pair_high, !byte_pair_low by assumption.
  repeat split.
Qed.

Lemma set_pair_get_pair_witness :
  let this := setHL 0x1234 (setBC 0xBEEF (fst constructor)) in
  registers_ok (registers this) /\
  setBC (getBC this) this = this /\
  setDE (getDE this) this = this /\
  setHL (getHL this) this = this.
Proof.
  intros this.
  assert (Hok : registers_ok (registers this))
    by (vm_compute; intuition discriminate).
  exact (conj Hok (set_pair_get_pair this Hok)).
Defined.

(** Without the width the round trip fails: with 0x1FF in B, [getBC()] is
    0x1FF00 and [setBC] of it leaves 0xFF in B. *)
Example set_pair_get_pair_needs_width :
  let this := with_registers (Registers.set_bc 0x1FF 0) (fst constructor) in
  Registers.b (registers (setBC (getBC this) this)) = 0xFF.
Proof. reflexivity. Qed.

(** ** Exchange of the register sets *)

(** X3.  [exchangeRegisterSets()] twice gives back the machine; one call
    swaps the seven register pairs and the two flags references and leaves
    I, R, IX, IY, SP, PC, the memory and the store alone (it takes no
    store). *)
Theorem exchangeRegisterSets_involutive (this : Z80Core) :
  exchangeRegisterSets (exchangeRegisterSets this) = this /\
  Registers.a (registers (exchangeRegisterSets this)) = Registers.a_prime (registers this) /\
  Registers.a_prime (registers (exchangeRegisterSets this)) = Registers.a (registers this) /\
  Registers.b (registers (exchangeRegisterSets this)) = Registers.b_prime (registers this) /\
  Registers.b_prime (registers (exchangeRegisterSets this)) = Registers.b (registers this) /\
  Registers.c (registers (exchangeRegisterSets this)) = Registers.c_prime (registers this) /\
  Registers.c_prime (registers (exchangeRegisterSets this)) = Registers.c (registers this) /\
  Registers.d (registers (exchangeRegisterSets this)) = Registers.d_prime (registers this) /\
  Registers.d_prime (registers (exchangeRegisterSets this)) = Registers.d (registers this) /\
  Registers.e (registers (exchangeRegisterSets this)) = Registers.e_prime (registers this) /\
  Registers.e_prime (registers (exchangeRegisterSets this)) = Registers.e (registers this) /\
  Registers.h (registers (exchangeRegisterSets this)) = Registers.h_prime (registers this) /\
  Registers.h_prime (registers (exchangeRegisterSets this)) = Registers.h (registers this) /\
  Registers.l (registers (exchangeRegisterSets this)) = Registers.l_prime (registers this) /\
  Registers.l_prime (registers (exchangeRegisterSets this)) = Registers.l (registers this) /\
  Registers.flags (registers (exchangeRegisterSets this)) =
    Registers.flags_prime (registers this) /\
  Registers.flags_prime (registers (exchangeRegisterSets this)) =
    Registers.flags (registers this) /\
  Registers.i (registers (exchangeRegisterSets this)) = Registers.i (registers this) /\
  Registers.r (registers (exchangeRegisterSets this)) = Registers.r (registers this) /\
  Registers.ix (registers (exchangeRegisterSets this)) = Registers.ix (registers this) /\
  Registers.iy (registers (exchangeRegisterSets this)) = Registers.iy (registers this) /\
  Registers.sp (registers (exchangeRegisterSets this)) = Registers.sp (registers this) /\
  Registers.pc (registers (exchangeRegisterSets this)) = Registers.pc (registers this) /\
  memory (exchangeRegisterSets this) = memory this.
Proof.
  destruct this as [x m hlt ie bp dbg sm]. destruct x.
  repeat split.
Qed.

(** X4.  With two distinct flags objects, [setF(b)] between two exchanges
    writes the shadow flags only: back in the primary set [getF()] reads
    what it read before, and in the exchanged set it reads [b & 0xD7]. *)
Theorem setF_on_shadow_set (this : Z80Core) (σ : Heap) (b : Z) :
  valid this σ ->
  Registers.flags (registers this) <> Registers.flags_prime (registers this) ->
  let shadow := exchangeRegisterSets this in
  let σ' := setF b shadow σ in
  getF (exchangeRegisterSets shadow) σ' = getF this σ /\
  getF shadow σ' = Z.land b 0xD7.
Proof.
  intros [Hp Hq] Hne shadow σ'. subst σ' shadow. split.
  - assert (Hinv : exchangeRegisterSets (exchangeRegisterSets this) = this)
      by (destruct this as [[] ? ? ? ? ? ?]; reflexivity).
    rewrite Hinv, !getF_pack, setF_alter.
    change (Registers.flags (registers (exchangeRegisterSets this)))
      with (Registers.flags_prime (registers this)).
    rewrite deref_alter_ne by congruence. reflexivity.
  - rewrite getF_pack, setF_alter.
    rewrite deref_alter_eq by exact Hq.
    apply pack_unpack.
Qed.

Lemma setF_on_shadow_set_witness :
  let this := fst constructor in
  let σ := snd constructor in
  getF (exchangeRegisterSets (exchangeRegisterSets this))
       (setF 0xFF (exchangeRegisterSets this) σ) = getF this σ /\
  getF (exchangeRegisterSets this) (setF 0xFF (exchangeRegisterSets this) σ) =
  Z.land 0xFF 0xD7.
Proof.
  intros this σ.
  assert (Hv : valid this σ) by (split; cbn; lia).
  assert (Hne : Registers.flags (registers this) <>
                Registers.flags_prime (registers this)) by (cbn; lia).
  exact (setF_on_shadow_set this σ 0xFF Hv Hne).
Defined.

(** ** Memory *)

Lemma land_0xFFFF_wrap (a k : Z) : Z.land (a + 65536 * k) 0xFFFF = Z.land a 0xFFFF.
Proof.
  rewrite !land_0xFFFF. rewrite Z.mul_comm. apply Z.mod_add. lia.
Qed.

(** X5.  [readByte(a)] after [writeByte(a, v)] is [v mod 256]; a cell at
    an address that differs from [a] modulo 65536 reads as before, and the
    registers are not touched. *)
Theorem readByte_after_writeByte (this : Z80Core) (a a' v : Z) :
  a mod 65536 <> a' mod 65536 ->
  readByte a (writeByte a v this) = v mod 256 /\
  readByte a' (writeByte a v this) = readByte a' this /\
  registers (writeByte a v this) = registers this.
Proof.
  intros Hne. split; [apply readByte_writeByte_eq | ].
  split; [ | reflexivity ].
  unfold readByte. rewrite memory_writeByte, land_0xFFFF.
  now rewrite decide_False.
Qed.

Lemma readByte_after_writeByte_witness :
  let this := fst constructor in
  readByte 0x10000 (writeByte 0x10000 0x1FF this) = 0x1FF mod 256 /\
  readByte 0xFFFF (writeByte 0x10000 0x1FF this) = readByte 0xFFFF this /\
  registers (writeByte 0x10000 0x1FF this) = registers this.
Proof.
  intros this.
  assert (Hne : 0x10000 mod 65536 <> 0xFFFF mod 65536) by (vm_compute; discriminate).
  exact (readByte_after_writeByte this 0x10000 0xFFFF 0x1FF Hne).
Defined.

(** X6.  Addresses are taken modulo 65536 on every access: an address and
    the same address plus any multiple of 65536 (a negative one too) name
    the same cell for [readByte], [writeByte], [readWord] and
    [writeWord]. *)
Theorem address_wraps (this : Z80Core) (a k v : Z) :
  readByte (a + 65536 * k) this = readByte a this /\
  writeByte (a + 65536 * k) v this = writeByte a v this /\
  readWord (a + 65536 * k) this = readWord a this /\
  writeWord (a + 65536 * k) v this = writeWord a v this.
Proof.
  assert (H1 : Z.land (a + 65536 * k + 1) 0xFFFF = Z.land (a + 1) 0xFFFF).
  { replace (a + 65536 * k + 1) with (a + 1 + 65536 * k) by lia.
    apply land_0xFFFF_wrap. }
  unfold readWord, writeWord, readByte, writeByte.
  rewrite !H1, !land_0xFFFF_wrap. repeat split.
Qed.

(** ** Program loading *)

Lemma mod_shift_neq (x d : Z) : 0 < d < 65536 -> (x + d) mod 65536 <> x mod 65536.
Proof. intros Hd. Z.div_mod_to_equations. lia. Qed.

Section LoadProgram.

Variable startAddress : Z.

Lemma loadProgram_from_fields (program : list Z) (i : Z) (this : Z80Core) :
  registers (loadProgram_from i program startAddress this) = registers this /\
  halted (loadProgram_from i program startAddress this) = halted this /\
  breakpoints (loadProgram_from i program startAddress this) = breakpoints this.
Proof.
  revert i this. induction program as [ | byte rest IH]; intros i this.
  - repeat split.
  - cbn [loadProgram_from]. destruct (IH (i + 1) (writeByte (startAddress + i) byte this))
      as (-> & -> & ->). repeat split.
Qed.

(** A cell that no byte of the program is written to keeps its value. *)
Lemma loadProgram_from_other (program : list Z) (i x : Z) (this : Z80Core) :
  (forall j : nat, (j < length program)%nat ->
     (startAddress + i + Z.of_nat j) mod 65536 <> x) ->
  memory (loadProgram_from i program startAddress this) x = memory this x.
Proof.
  revert i this. induction program as [ | byte rest IH]; intros i this Hfree.
  - reflexivity.
  - cbn [loadProgram_from]. rewrite IH.
    + rewrite memory_writeByte. rewrite decide_False; [reflexivity | ].
      specialize (Hfree O ltac:(cbn; lia)).
      now rewrite Z.add_0_r in Hfree.
    + intros j Hj. specialize (Hfree (S j) ltac:(cbn; lia)).
      now replace (startAddress + (i + 1) + Z.of_nat j)
        with (startAddress + i + Z.of_nat (S j)) by lia.
Qed.

(** The cell of byte [j] holds it, when the program does not wrap onto
    itself. *)
Lemma loadProgram_from_lookup (program : list Z) (i : Z) (j : nat) (byte : Z)
    (this : Z80Core) :
  Z.of_nat (length program) <= 65536 ->
  program !! j = Some byte ->
  memory (loadProgram_from i program startAddress this)
         ((startAddress + i + Z.of_nat j) mod 65536) = byte mod 256.
Proof.
  revert i j this. induction program as [ | first rest IH]; intros i j this Hlen Hj.
  - discriminate.
  - cbn [loadProgram_from]. cbn [length] in Hlen. destruct j as [ | j].
    + injection Hj as ->.
      rewrite loadProgram_from_other.
      * rewrite memory_writeByte, Z.add_0_r. now rewrite decide_True.
      * intros j Hj.
        replace (startAddress + (i + 1) + Z.of_nat j)
          with (startAddress + i + Z.of_nat 0 + (1 + Z.of_nat j)) by lia.
        apply mod_shift_neq. lia.
    + replace (startAddress + i + Z.of_nat (S j))
        with (startAddress + (i + 1) + Z.of_nat j) by lia.
      apply IH; [lia | exact Hj].
Qed.

End LoadProgram.

(** X7.  After [loadProgram(program, startAddress)] with at most 65536
    bytes, [readByte(startAddress + j)] is byte [j] of the program modulo
    256, for every index [j] of the program, also where the addresses wrap
    past 0xFFFF. *)
Theorem loadProgram_readByte (this : Z80Core) (program : list Z)
    (startAddress : Z) (j : nat) (byte : Z) :
  Z.of_nat (length program) <= 65536 ->
  program !! j = Some byte ->
  readByte (startAddress + Z.of_nat j) (loadProgram program startAddress this) =
  byte mod 256.
Proof.
  intros Hlen Hj. unfold readByte, loadProgram. rewrite land_0xFFFF.
  replace (startAddress + Z.of_nat j) with (startAddress + 0 + Z.of_nat j) by lia.
  now apply loadProgram_from_lookup.
Qed.

(** A three-byte program loaded at 0xFFFF: its last byte is read back at
    0x10001, that is from cell 0x0001. *)
Lemma loadProgram_readByte_witness :
  readByte (0xFFFF + Z.of_nat 2)
           (loadProgram [0x3E; 0x42; 0x176] 0xFFFF (fst constructor)) =
  0x176 mod 256.
Proof.
  refine (loadProgram_readByte (fst constructor) [0x3E; 0x42; 0x176] 0xFFFF 2 0x176 _ eq_refl).
  cbn. lia.
Defined.

(** X8.  [loadProgram] writes only the cells [startAddress + j] (modulo
    65536) for the indices [j] of the program: every other cell reads as
    before, and registers, [halted] and the breakpoints are not touched (PC
    in particular is not moved to the start address). *)
Theorem loadProgram_frame (this : Z80Core) (program : list Z) (startAddress x : Z) :
  (forall j : nat, (j < length program)%nat ->
     (startAddress + Z.of_nat j) mod 65536 <> x mod 65536) ->
  readByte x (loadProgram program startAddress this) = readByte x this /\
  registers (loadProgram program startAddress this) = registers this /\
  halted (loadProgram program startAddress this) = halted this /\
  breakpoints (loadProgram program startAddress this) = breakpoints this.
Proof.
  intros Hfree. split; [ | apply loadProgram_from_fields ].
  unfold readByte, loadProgram. rewrite land_0xFFFF.
  apply loadProgram_from_other.
  intros j Hj. rewrite Z.add_0_r. now apply Hfree.
Qed.

Lemma loadProgram_frame_witness :
  let this := fst constructor in
  readByte 0x0002 (loadProgram [0x3E; 0x42] 0x0000 this) = readByte 0x0002 this /\
  registers (loadProgram [0x3E; 0x42] 0x0000 this) = registers this /\
  halted (loadProgram [0x3E; 0x42] 0x0000 this) = halted this /\
  breakpoints (loadProgram [0x3E; 0x42] 0x0000 this) = breakpoints this.
Proof.
  intros this.
  refine (loadProgram_frame this [0x3E; 0x42] 0x0000 0x0002 _).
  intros j Hj. cbn in Hj.
  assert (j = 0 \/ j = 1)%nat as [-> | ->] by lia; vm_compute; discriminate.
Defined.

(** ** Stack discipline *)

Lemma readWord_unchanged (this this' : Z80Core) (a : Z) :
  memory this' (a mod 65536) = memory this (a mod 65536) ->
  memory this' ((a + 1) mod 65536) = memory this ((a + 1) mod 65536) ->
  readWord a this' = readWord a this.
Proof. intros H0 H1. rewrite !readWord_memory. now rewrite H0, H1. Qed.

(** X9.  The stack is last-in first-out: after [pushStack(a)] and
    [pushStack(b)], the first [popStack()] returns [b mod 65536] and the
    second [a mod 65536], and SP ends at its starting value modulo 65536,
    whatever SP was. *)
Theorem stack_lifo (this : Z80Core) (a b : Z) :
  let pushed := pushStack b (pushStack a this) in
  let first := popStack pushed in
  let second := popStack (snd first) in
  fst first = b mod 65536 /\
  fst second = a mod 65536 /\
  Registers.sp (registers (snd second)) = Registers.sp (registers this) mod 65536.
Proof.
  intros pushed first second. subst second first pushed.
  set (this1 := pushStack a this).
  assert (Hsp1 : Registers.sp (registers this1) =
                 (Registers.sp (registers this) - 2) mod 65536)
    by apply sp_pushStack.
  assert (Hsp2 : Registers.sp (registers (pushStack b this1)) =
                 (Registers.sp (registers this1) - 2) mod 65536)
    by apply sp_pushStack.
  assert (Hback : Registers.sp (registers (snd (popStack (pushStack b this1)))) =
                  Registers.sp (registers this1)).
  { unfold popStack; cbn [snd with_registers registers Registers.sp Registers.set_sp].
    rewrite Hsp2, land_0xFFFF, Hsp1. Z.div_mod_to_equations. lia. }
  split; [ | split ].
  - unfold popStack; cbn [fst]. apply readWord_pushStack.
  - unfold popStack at 1; cbn [fst]. rewrite Hback.
    transitivity (readWord (Registers.sp (registers this1)) this1);
      [ | apply readWord_pushStack ].
    apply readWord_unchanged.
    + change (memory (snd (popStack (pushStack b this1))))
        with (memory (pushStack b this1)).
      unfold pushStack at 1. rewrite memory_writeWord.
      cbn [with_registers registers Registers.sp Registers.set_sp memory].
      rewrite land_0xFFFF, Hsp1.
      rewrite !decide_False; [reflexivity | | ]; Z.div_mod_to_equations; lia.
    + change (memory (snd (popStack (pushStack b this1))))
        with (memory (pushStack b this1)).
      unfold pushStack at 1. rewrite memory_writeWord.
      cbn [with_registers registers Registers.sp Registers.set_sp memory].
      rewrite land_0xFFFF, Hsp1.
      rewrite !decide_False; [reflexivity | | ]; Z.div_mod_to_equations; lia.
  - unfold popStack at 1; cbn [snd with_registers registers Registers.sp Registers.set_sp].
    rewrite Hback, land_0xFFFF, Hsp1. Z.div_mod_to_equations. lia.
Qed.

(** ** Breakpoints *)

(** X10.  [toggleBreakpoint(a)] returns true exactly when the masked
    address was not a breakpoint; afterwards the masked address is a
    breakpoint exactly when true was returned, every other address is as
    before, and a second toggle restores the breakpoint set.  Registers and
    memory are not touched. *)
Theorem toggleBreakpoint_flips (this : Z80Core) (a x : Z) :
  let toggled := toggleBreakpoint a this in
  fst toggled = negb (bool_decide (a mod 65536 ∈ breakpoints this)) /\
  (a mod 65536 ∈ breakpoints (snd toggled) <-> fst toggled = true) /\
  (x <> a mod 65536 ->
   (x ∈ breakpoints (snd toggled) <-> x ∈ breakpoints this)) /\
  breakpoints (snd (toggleBreakpoint a (snd toggled))) = breakpoints this /\
  registers (snd toggled) = registers this /\
  memory (snd toggled) = memory this.
Proof.
  intros toggled. subst toggled. unfold toggleBreakpoint.
  rewrite land_0xFFFF.
  destruct (decide (a mod 65536 ∈ breakpoints this)) as [Hin | Hout].
  - rewrite (bool_decide_eq_true_2 _ Hin).
    cbn [fst snd negb with_breakpoints breakpoints registers memory].
    rewrite bool_decide_eq_false_2 by set_solver.
    cbn [fst snd with_breakpoints breakpoints].
    repeat split; try set_solver.
    apply set_eq. intros y.
    destruct (decide (y = a mod 65536)); set_solver.
  - rewrite (bool_decide_eq_false_2 _ Hout).
    cbn [fst snd negb with_breakpoints breakpoints registers memory].
    rewrite bool_decide_eq_true_2 by set_solver.
    cbn [fst snd with_breakpoints breakpoints].
    repeat split; try set_solver.
Qed.

(** X11.  After [setBreakpoint(a)] the address [a mod 65536] is a
    breakpoint, and setting it again changes nothing; [clearBreakpoint] of
    any address congruent to [a] modulo 65536 removes it and leaves the
    other breakpoints; after [clearAllBreakpoints()] no address is a
    breakpoint. *)
Theorem breakpoint_set_clear (this : Z80Core) (a k x : Z) :
  a mod 65536 ∈ breakpoints (setBreakpoint a this) /\
  setBreakpoint a (setBreakpoint a this) = setBreakpoint a this /\
  ~ a mod 65536 ∈ breakpoints (clearBreakpoint (a + 65536 * k) (setBreakpoint a this)) /\
  (x <> a mod 65536 ->
   (x ∈ breakpoints (clearBreakpoint (a + 65536 * k) (setBreakpoint a this)) <->
    x ∈ breakpoints this)) /\
  x ∉ breakpoints (clearAllBreakpoints this).
Proof.
  unfold setBreakpoint, clearBreakpoint, clearAllBreakpoints, with_breakpoints.
  cbn [breakpoints registers memory halted interruptsEnabled isDebugging stepMode].
  rewrite land_0xFFFF_wrap, !land_0xFFFF.
  split; [set_solver | ].
  split; [f_equal; set_solver | ].
  split; [set_solver | ].
  split; [set_solver | set_solver].
Qed.


(** ** Single steps *)

Lemma steps_succ_r (n : nat) (this : Z80Core) :
  steps (S n) this = steps n (snd (step this)).
Proof. exact (Nat.iter_succ_r n (fun m => snd (step m)) this). Qed.

Lemma step_with_isDebugging (d : bool) (this : Z80Core) :
  step (with_isDebugging d this) =
  (fst (step this), with_isDebugging d (snd (step this))).
Proof.
  unfold step, executeInstruction, readByte; cbn.
  destruct (halted this); [reflexivity | ].
  repeat (destruct (_ =? _); [reflexivity | ]). reflexivity.
Qed.

Lemma steps_with_isDebugging (d : bool) (n : nat) (this : Z80Core) :
  steps n (with_isDebugging d this) = with_isDebugging d (steps n this).
Proof.
  induction n as [ | n IH]; [reflexivity | ].
  change (steps (S n) (with_isDebugging d this))
    with (snd (step (steps n (with_isDebugging d this)))).
  rewrite IH, step_with_isDebugging. reflexivity.
Qed.

Lemma with_a_pc_halted_id (this : Z80Core) :
  with_a_pc_halted (Registers.a (registers this)) (Registers.pc (registers this))
                   (halted this) this = this.
Proof. destruct this as [[] ? ? ? ? ? ?]. reflexivity. Qed.

Lemma step_touches (this : Z80Core) :
  exists (a' pc' : Z) (halted' : bool),
    snd (step this) = with_a_pc_halted a' pc' halted' this /\
    (halted this = true -> halted' = true).
Proof.
  unfold step. destruct (halted this) eqn:Hh.
  - exists (Registers.a (registers this)), (Registers.pc (registers this)), true.
    split; [ | reflexivity ]. cbn [snd]. rewrite <- Hh at 1.
    symmetry. apply with_a_pc_halted_id.
  - cbn [snd]. unfold executeInstruction.
    set (pc1 := Z.land (Registers.pc (registers this) + 1) 0xFFFF).
    destruct (_ =? 0x00).
    { exists (Registers.a (registers this)), pc1, false.
      split; [ | discriminate ]. rewrite <- Hh.
      destruct this as [[] ? ? ? ? ? ?]. reflexivity. }
    destruct (_ =? 0x3E).
    { exists (memory this (Z.land pc1 0xFFFF)), (Z.land (pc1 + 1) 0xFFFF), false.
      split; [ | discriminate ]. rewrite <- Hh.
      destruct this as [[] ? ? ? ? ? ?]. reflexivity. }
    destruct (_ =? 0x76).
    { exists (Registers.a (registers this)), pc1, true.
      split; [ | discriminate ].
      destruct this as [[] ? ? ? ? ? ?]. reflexivity. }
    exists (Registers.a (registers this)), pc1, false.
    split; [ | discriminate ]. rewrite <- Hh.
    destruct this as [[] ? ? ? ? ? ?]. reflexivity.
Qed.

Lemma steps_touch (n : nat) (this : Z80Core) :
  exists (a' pc' : Z) (halted' : bool),
    steps n this = with_a_pc_halted a' pc' halted' this /\
    (halted this = true -> halted' = true).
Proof.
  induction n as [ | n IH].
  - exists (Registers.a (registers this)), (Registers.pc (registers this)), (halted this).
    split; [ | tauto ]. symmetry. apply with_a_pc_halted_id.
  - destruct IH as (a1 & pc1 & h1 & Heq & Hmono).
    change (steps (S n) this) with (snd (step (steps n this))).
    destruct (step_touches (steps n this)) as (a2 & pc2 & h2 & Heq2 & Hmono2).
    exists a2, pc2, h2. split.
    + rewrite Heq2, Heq. reflexivity.
    + intros Hh. apply Hmono2. rewrite Heq. cbn. now apply Hmono.
Qed.

Lemma steps_touch_frame (n : nat) (this : Z80Core) :
  memory (steps n this) = memory this /\
  breakpoints (steps n this) = breakpoints this.
Proof.
  induction n as [ | n [IHm IHb]]; [split; reflexivity | ].
  change (steps (S n) this) with (snd (step (steps n this))).
  destruct (step_touches (steps n this)) as (a' & pc' & h' & -> & _).
  split; assumption.
Qed.

(** X12.  Whatever the memory holds, any number of [step()] calls changes
    at most register A, PC and [halted]: the memory, the breakpoints, the
    other registers, both flags references and the remaining fields stay,
    and a halted machine stays halted. *)
Theorem steps_touch_a_pc_halted (n : nat) (this : Z80Core) :
  (exists (a' pc' : Z) (halted' : bool),
     steps n this = with_a_pc_halted a' pc' halted' this /\
     (halted this = true -> halted' = true)) /\
  memory (steps n this) = memory this /\
  breakpoints (steps n this) = breakpoints this /\
  Registers.sp (registers (steps n this)) = Registers.sp (registers this) /\
  Registers.flags (registers (steps n this)) = Registers.flags (registers this) /\
  Registers.flags_prime (registers (steps n this)) =
    Registers.flags_prime (registers this).
Proof.
  pose proof (steps_touch n this) as Htouch.
  split; [exact Htouch | ].
  destruct Htouch as (a' & pc' & h' & -> & _). repeat split.
Qed.

(** X13.  With opcode 0x3E (LD A,n) at PC, [step()] on a running machine
    loads A with the byte that follows the opcode, at [PC + 1] modulo
    65536, and advances PC by two modulo 65536; nothing else changes. *)
Theorem step_LD_A_n (this : Z80Core) :
  halted this = false ->
  readByte (Registers.pc (registers this)) this = 0x3E ->
  step this =
  (true,
   with_a_pc_halted (readByte (Registers.pc (registers this) + 1) this)
                    ((Registers.pc (registers this) + 2) mod 65536) false this).
Proof.
  intros Hrun Hop. rewrite step_running by exact Hrun. rewrite Hop.
  unfold executeInstruction. cbn [Z.eqb Pos.eqb]. f_equal.
  unfold fetched, with_a_pc_halted, readByte.
  cbn [with_registers registers memory Registers.pc Registers.set_pc].
  rewrite !land_0xFFFF, Z.mod_mod by lia.
  assert (Hpc : Z.land ((Registers.pc (registers this) + 1) mod 65536 + 1) 0xFFFF =
                (Registers.pc (registers this) + 2) mod 65536).
  { rewrite land_0xFFFF, Zplus_mod_idemp_l. f_equal. lia. }
  destruct this as [[] ? hlt ? ? ? ?].
  unfold with_registers, with_halted in *.
  cbn [registers memory halted interruptsEnabled breakpoints isDebugging stepMode
       Registers.pc Registers.set_pc Registers.set_a Registers.a Registers.b
       Registers.c Registers.d Registers.e Registers.h Registers.l
       Registers.a_prime Registers.b_prime Registers.c_prime Registers.d_prime
       Registers.e_prime Registers.h_prime Registers.l_prime Registers.i
       Registers.r Registers.ix Registers.iy Registers.sp Registers.flags
       Registers.flags_prime] in *.
  rewrite Hpc, Hrun. reflexivity.
Qed.

(** The opcode in the last cell: the operand comes from cell 0x0000 and PC
    wraps to 0x0001. *)
Lemma step_LD_A_n_witness :
  let this :=
    with_registers (Registers.set_pc 0xFFFF)
      (loadProgram [0x3E; 0x42] 0xFFFF (fst constructor)) in
  step this = (true, with_a_pc_halted 0x42 0x0001 false this).
Proof.
  intros this.
  exact (step_LD_A_n this eq_refl eq_refl).
Defined.

(** ** The loop of [run] *)

Lemma stops_false (this : Z80Core) :
  stops this = false ->
  halted this = false /\ Registers.pc (registers this) ∉ breakpoints this.
Proof.
  unfold stops. intros H. apply orb_false_elim in H as [Hh Hb].
  split; [exact Hh | ]. now apply bool_decide_eq_false in Hb.
Qed.

Lemma stops_true (this : Z80Core) :
  stops this = true ->
  halted this = true \/
  (halted this = false /\ Registers.pc (registers this) ∈ breakpoints this).
Proof.
  unfold stops. intros H. destruct (halted this); [now left | right].
  cbn [orb] in H. split; [reflexivity | ]. now apply bool_decide_eq_true in H.
Qed.

Lemma run_loop_exit (fuel k : nat) (this : Z80Core) :
  stops this = true ->
  run_loop (S fuel) k this = Some (k, stopped_machine this).
Proof.
  intros H. unfold stopped_machine.
  destruct (stops_true this H) as [Hh | [Hh Hb]]; rewrite Hh.
  - now apply run_loop_halted.
  - now apply run_loop_breakpoint.
Qed.

Lemma run_loop_reaches (n : nat) :
  forall (fuel k : nat) (this : Z80Core),
    (forall j : nat, (j < n)%nat -> stops (steps j this) = false) ->
    stops (steps n this) = true ->
    (n < fuel)%nat ->
    run_loop fuel k this = Some ((k + n)%nat, stopped_machine (steps n this)).
Proof.
  induction n as [ | n IH]; intros fuel k this Hbefore Hstop Hfuel.
  - destruct fuel as [ | fuel]; [lia | ].
    rewrite Nat.add_0_r. now apply run_loop_exit.
  - destruct fuel as [ | fuel]; [lia | ].
    destruct (stops_false this (Hbefore O ltac:(lia))) as [Hh Hb].
    rewrite run_loop_step by assumption.
    rewrite (IH fuel (S k) (snd (step this))).
    + rewrite steps_succ_r. do 2 f_equal. lia.
    + intros j Hj. rewrite <- steps_succ_r. apply Hbefore. lia.
    + now rewrite <- steps_succ_r.
    + lia.
Qed.

Lemma run_loop_returns (fuel : nat) :
  forall (k m : nat) (this this' : Z80Core),
    run_loop fuel k this = Some (m, this') ->
    exists n : nat,
      m = (k + n)%nat /\ (n < fuel)%nat /\
      (forall j : nat, (j < n)%nat -> stops (steps j this) = false) /\
      stops (steps n this) = true /\
      this' = stopped_machine (steps n this).
Proof.
  induction fuel as [ | fuel IH]; intros k m this this' Hrun; [discriminate | ].
  destruct (stops this) eqn:Hstop.
  - rewrite run_loop_exit in Hrun by exact Hstop.
    injection Hrun as <- <-. exists O.
    repeat split; [lia | lia | intros j Hj; lia | exact Hstop].
  - destruct (stops_false this Hstop) as [Hh Hb].
    rewrite run_loop_step in Hrun by assumption.
    destruct (IH _ _ _ _ Hrun) as (n & -> & Hlt & Hbefore & Hstop' & ->).
    exists (S n). rewrite !steps_succ_r.
    repeat split; try lia; try assumption.
    intros [ | j] Hj; [exact Hstop | ].
    rewrite steps_succ_r. apply Hbefore. lia.
Qed.

(** X14.  [run()] returns as soon as the machine is halted or its PC is a
    breakpoint: if [n] is the first number of steps after which this is
    so, then [run()], given more than [n] iterations, returns after
    exactly [n] calls of [step()], leaving the machine those [n] steps
    lead to, with [isDebugging] true on the breakpoint exit and false on
    the halt exit. *)
Theorem run_reaches_first_stop (this : Z80Core) (fuel n : nat) :
  (forall j : nat, (j < n)%nat -> stops (steps j this) = false) ->
  stops (steps n this) = true ->
  (n < fuel)%nat ->
  run fuel this =
  Some (n, stopped_machine (with_isDebugging false (steps n this))).
Proof.
  intros Hbefore Hstop Hfuel. unfold run.
  rewrite (run_loop_reaches n fuel O (with_isDebugging false this)).
  - now rewrite steps_with_isDebugging.
  - intros j Hj. rewrite steps_with_isDebugging. now apply Hbefore.
  - now rewrite steps_with_isDebugging.
  - exact Hfuel.
Qed.

(** Two NOPs and a HALT, no breakpoint: three steps, then halted. *)
Lemma run_reaches_first_stop_witness :
  let this := loadProgram [0x00; 0x00; 0x76] 0x0000 (fst constructor) in
  run 4 this = Some (3%nat, stopped_machine (with_isDebugging false (steps 3 this))) /\
  halted (steps 3 this) = true /\
  Registers.pc (registers (steps 3 this)) = 0x0003.
Proof.
  intros this.
  assert (Hbefore : forall j : nat, (j < 3)%nat -> stops (steps j this) = false).
  { intros j Hj.
    assert (j = 0 \/ j = 1 \/ j = 2)%nat as [-> | [-> | ->]] by lia;
      vm_compute; reflexivity. }
  assert (Hstop : stops (steps 3 this) = true) by (vm_compute; reflexivity).
  split; [ | split; reflexivity ].
  exact (run_reaches_first_stop this 4 3 Hbefore Hstop (le_n 4)).
Defined.

(** X15.  What [run()] returns is sound: if it returns after [n] calls of
    [step()], the machine it leaves is the one [n] steps lead to, that
    machine is halted or has its PC on a breakpoint (and then
    [isDebugging] is true), no earlier one was, and the memory and the
    breakpoints are those [run()] started with. *)
Theorem run_returns_first_stop (this this' : Z80Core) (fuel n : nat) :
  run fuel this = Some (n, this') ->
  (n < fuel)%nat /\
  (forall j : nat, (j < n)%nat -> stops (steps j this) = false) /\
  this' = stopped_machine (with_isDebugging false (steps n this)) /\
  (halted this' = true /\ isDebugging this' = false \/
   halted this' = false /\ isDebugging this' = true /\
   Registers.pc (registers this') ∈ breakpoints this') /\
  memory this' = memory this /\
  breakpoints this' = breakpoints this.
Proof.
  unfold run. intros Hrun.
  destruct (run_loop_returns _ _ _ _ _ Hrun) as (k & -> & Hlt & Hbefore & Hstop & ->).
  rewrite steps_with_isDebugging in *.
  destruct (steps_touch_frame k this) as (Hmem & Hbp).
  cbn [Nat.add]. split; [exact Hlt | ].
  split.
  { intros j Hj. specialize (Hbefore j Hj).
    now rewrite steps_with_isDebugging in Hbefore. }
  split; [reflexivity | ].
  unfold stopped_machine.
  destruct (stops_true _ Hstop) as [Hh | [Hh Hb]]; rewrite Hh.
  - split; [left; split; [exact Hh | reflexivity] | ]. split; assumption.
  - split; [right; split; [exact Hh | split; [reflexivity | exact Hb]] | ].
    split; assumption.
Qed.

Lemma run_returns_first_stop_witness :
  let this := setBreakpoint 0x0002 (loadProgram [0x00; 0x00; 0x76] 0x0000 (fst constructor)) in
  let this' := stopped_machine (with_isDebugging false (steps 2 this)) in
  run 9 this = Some (2%nat, this') /\
  halted this' = false /\ isDebugging this' = true /\
  memory this' = memory this.
Proof.
  intros this this'.
  assert (Hrun : run 9 this = Some (2%nat, this')) by reflexivity.
  destruct (run_returns_first_stop this this' 9 2 Hrun) as (_ & _ & _ & _ & Hmem & _).
  exact (conj Hrun (conj eq_refl (conj eq_refl Hmem))).
Defined.

Lemma run_loop_never_stops (fuel : nat) :
  forall (k : nat) (this : Z80Core),
    (forall a : Z, readByte a this <> 0x76) ->
    breakpoints this = ∅ ->
    halted this = false ->
    run_loop fuel k this = None.
Proof.
  induction fuel as [ | fuel IH]; intros k this Hno Hbp Hrun; [reflexivity | ].
  rewrite run_loop_step; [ | exact Hrun | rewrite Hbp; set_solver ].
  destruct (step_touches this) as (a' & pc' & h' & Heq & _).
  assert (Hh : halted (snd (step this)) = false).
  { rewrite step_running by exact Hrun. cbn [snd]. unfold executeInstruction.
    destruct (_ =? 0x00); [exact Hrun | ].
    destruct (_ =? 0x3E); [exact Hrun | ].
    destruct (Z.eqb_spec (readByte (Registers.pc (registers this)) this) 0x76) as [Heq76 | _];
      [ | exact Hrun ].
    now apply Hno in Heq76. }
  apply IH.
  - intros a. rewrite Heq. exact (Hno a).
  - rewrite Heq. exact Hbp.
  - exact Hh.
Qed.

(** X16.  With no breakpoint set and no HALT byte (0x76) anywhere in
    memory, [run()] on a running machine never returns: however many
    iterations the loop is given, it is still running.  This is the case
    of a fresh or reset machine with cleared memory. *)
Theorem run_never_returns (this : Z80Core) (fuel : nat) :
  (forall a : Z, readByte a this <> 0x76) ->
  breakpoints this = ∅ ->
  halted this = false ->
  run fuel this = None.
Proof.
  intros Hno Hbp Hrun. unfold run.
  now apply run_loop_never_stops.
Qed.

Lemma run_never_returns_witness :
  run 1000 (fst (reset (fst constructor) (snd constructor))) = None.
Proof.
  refine (run_never_returns
            (fst (reset (fst constructor) (snd constructor))) 1000 _ eq_refl eq_refl).
  intros a. cbn. discriminate.
Defined.

(** ** [debug] *)

Lemma debugs_succ_r (n : nat) (this : Z80Core) :
  debugs (S n) this = debugs n (snd (debug this)).
Proof. exact (Nat.iter_succ_r n (fun m => snd (debug m)) this). Qed.

Lemma debug_stopped (this : Z80Core) :
  stops this = true -> snd (debug this) = with_isDebugging true this.
Proof.
  intros H. unfold debug.
  cbn [with_isDebugging halted stepMode registers breakpoints].
  destruct (stops_true this H) as [Hh | [Hh Hb]]; rewrite Hh; cbn [negb andb].
  - reflexivity.
  - destruct (stepMode this); cbn [negb]; [reflexivity | ].
    now rewrite bool_decide_eq_true_2.
Qed.

Lemma debug_running (this : Z80Core) :
  stepMode this = false -> stops this = false ->
  snd (debug this) = with_isDebugging true (snd (step this)).
Proof.
  intros Hsm H. destruct (stops_false this H) as [Hh Hb]. unfold debug.
  cbn [with_isDebugging halted stepMode registers breakpoints].
  rewrite Hh, Hsm. cbn [negb andb].
  rewrite bool_decide_eq_false_2 by exact Hb. cbn [snd].
  change (mkZ80Core (registers this) (memory this) (halted this)
            (interruptsEnabled this) (breakpoints this) true (stepMode this))
    with (with_isDebugging true this).
  now rewrite step_with_isDebugging.
Qed.

Lemma stepMode_step (this : Z80Core) : stepMode (snd (step this)) = stepMode this.
Proof. destruct (step_touches this) as (a' & pc' & h' & -> & _). reflexivity. Qed.

Lemma debugs_stay (m : nat) (this : Z80Core) :
  stops this = true ->
  debugs m (with_isDebugging true this) = with_isDebugging true this.
Proof.
  intros H. induction m as [ | m IH]; [reflexivity | ].
  rewrite debugs_succ_r, debug_stopped by exact H. exact IH.
Qed.

Lemma debugs_reach (n : nat) :
  forall (m : nat) (this : Z80Core),
    stepMode this = false ->
    (forall j : nat, (j < n)%nat -> stops (steps j this) = false) ->
    stops (steps n this) = true ->
    (n <= m)%nat ->
    debugs m (with_isDebugging true this) = with_isDebugging true (steps n this).
Proof.
  induction n as [ | n IH]; intros m this Hsm Hbefore Hstop Hle.
  - now apply debugs_stay.
  - destruct m as [ | m]; [lia | ].
    rewrite debugs_succ_r.
    rewrite debug_running;
      [ | exact Hsm | exact (Hbefore O ltac:(lia)) ].
    rewrite step_with_isDebugging. cbn [snd].
    change (with_isDebugging true (with_isDebugging true (snd (step this))))
      with (with_isDebugging true (snd (step this))).
    rewrite steps_succ_r. apply IH.
    + now rewrite stepMode_step.
    + intros j Hj. rewrite <- steps_succ_r. apply Hbefore. lia.
    + now rewrite <- steps_succ_r.
    + lia.
Qed.

(** X17.  [debug()] never leaves a breakpoint: with PC in the breakpoint
    set, any number of [debug()] calls (at least one) leaves the machine
    as it was but for [isDebugging], which is true, and each call reports
    the unchanged PC as its address. *)
Theorem debug_stays_at_breakpoint (this : Z80Core) (m : nat) :
  Registers.pc (registers this) ∈ breakpoints this ->
  debugs (S m) this = with_isDebugging true this /\
  DebugResult.address (fst (debug (debugs m this))) = Registers.pc (registers this).
Proof.
  intros Hbp.
  assert (Hstop : stops this = true).
  { unfold stops. rewrite (bool_decide_eq_true_2 _ Hbp). apply orb_true_r. }
  assert (Hall : forall k : nat, debugs (S k) this = with_isDebugging true this).
  { intros k. rewrite debugs_succ_r, debug_stopped by exact Hstop.
    now apply debugs_stay. }
  split; [apply Hall | ].
  assert (Hpc : Registers.pc (registers (debugs m this)) = Registers.pc (registers this)).
  { destruct m as [ | m]; [reflexivity | ]. now rewrite Hall. }
  rewrite <- Hpc. unfold debug.
  cbn [with_isDebugging halted stepMode registers breakpoints].
  assert (Hbp' : Registers.pc (registers (debugs m this)) ∈ breakpoints (debugs m this)).
  { destruct m as [ | m]; [exact Hbp | ]. rewrite Hall. exact Hbp. }
  destruct (negb (halted (debugs m this)) && negb (stepMode (debugs m this)));
    [ | reflexivity ].
  now rewrite bool_decide_eq_true_2.
Qed.

Lemma debug_stays_at_breakpoint_witness :
  let this := setBreakpoint 0x0000 (fst constructor) in
  debugs 5 this = with_isDebugging true this /\
  DebugResult.address (fst (debug (debugs 4 this))) = Registers.pc (registers this).
Proof.
  intros this.
  refine (debug_stays_at_breakpoint this 4 _).
  refine (bool_decide_unpack _ _); vm_compute; exact I.
Defined.

(** X18.  Repeated [debug()] and [run()] stop at the same place: on a
    machine with [stepMode] false, if the first stop (halt or breakpoint)
    comes after [n] steps, then [n] calls of [debug()] or more, and at
    least one, leave the machine those [n] steps lead to, with
    [isDebugging] true; further calls change nothing. *)
Theorem debug_reaches_first_stop (this : Z80Core) (n m : nat) :
  stepMode this = false ->
  (forall j : nat, (j < n)%nat -> stops (steps j this) = false) ->
  stops (steps n this) = true ->
  (n <= S m)%nat ->
  debugs (S m) this = with_isDebugging true (steps n this).
Proof.
  intros Hsm Hbefore Hstop Hle. rewrite debugs_succ_r.
  destruct n as [ | n].
  - rewrite debug_stopped by exact Hstop. now apply debugs_stay.
  - rewrite debug_running; [ | exact Hsm | exact (Hbefore O ltac:(lia)) ].
    rewrite steps_succ_r.
    apply debugs_reach.
    + now rewrite stepMode_step.
    + intros j Hj. rewrite <- steps_succ_r. apply Hbefore. lia.
    + now rewrite <- steps_succ_r.
    + lia.
Qed.

(** Four NOPs before a breakpoint at 0x0004: four [debug()] calls reach
    it, and so do seven. *)
Lemma debug_reaches_first_stop_witness :
  let this :=
    setBreakpoint 0x0004 (loadProgram [0x00; 0x00; 0x00; 0x00; 0x76] 0x0000 (fst constructor)) in
  debugs 4 this = with_isDebugging true (steps 4 this) /\
  debugs 7 this = with_isDebugging true (steps 4 this).
Proof.
  intros this.
  assert (Hbefore : forall j : nat, (j < 4)%nat -> stops (steps j this) = false).
  { intros j Hj.
    assert (j = 0 \/ j = 1 \/ j = 2 \/ j = 3)%nat as [-> | [-> | [-> | ->]]] by lia;
      vm_compute; reflexivity. }
  assert (Hstop : stops (steps 4 this) = true) by (vm_compute; reflexivity).
  split.
  - exact (debug_reaches_first_stop this 4 3 eq_refl Hbefore Hstop (le_n 4)).
  - refine (debug_reaches_first_stop this 4 6 eq_refl Hbefore Hstop _). lia.
Defined.

(** ** Reset, once more *)

Lemma length_clear_flags (p : ref) (σ : Heap) : length (clear_flags p σ) = length σ.
Proof. rewrite clear_flags_alter. apply length_alter. Qed.

Lemma deref_clear_flags (p q : ref) (σ : Heap) :
  (q < length σ)%nat ->
  deref (clear_flags p σ) q = if decide (p = q) then Flags.zero else deref σ q.
Proof.
  intros Hq. rewrite clear_flags_alter.
  destruct (decide (p = q)) as [-> | Hne].
  - now rewrite deref_alter_eq.
  - now rewrite deref_alter_ne.
Qed.

Lemma reset_zeroes (this : Z80Core) (σ : Heap) :
  valid this σ ->
  deref (snd (reset this σ)) (Registers.flags (registers this)) = Flags.zero /\
  deref (snd (reset this σ)) (Registers.flags_prime (registers this)) = Flags.zero.
Proof.
  intros [Hp Hq].
  set (p := Registers.flags (registers this)) in *.
  set (q := Registers.flags_prime (registers this)) in *.
  assert (Hheap : snd (reset this σ) = clear_flags q (clear_flags p σ)) by reflexivity.
  split.
  - rewrite Hheap, deref_clear_flags by (rewrite length_clear_flags; exact Hp).
    destruct (decide (q = p)); [reflexivity | ].
    rewrite deref_clear_flags by exact Hp. now rewrite decide_True.
  - rewrite Hheap, deref_clear_flags by (rewrite length_clear_flags; exact Hq).
    now rewrite decide_True.
Qed.

(** X19.  After [reset()] every number of the register file is 0 except
    SP, which is 0xFFFF; the two flags objects are the ones the machine
    had, with every flag 0 (also when both references are to one object),
    so [getF()] is 0; [halted] and [interruptsEnabled] are false, so the
    next [step()] executes; and a second [reset()] changes nothing. *)
Theorem reset_postcondition (this : Z80Core) (σ : Heap) :
  valid this σ ->
  registers (fst (reset this σ)) =
    Registers.mk 0 0 0 0 0 0 0  0 0 0 0 0 0 0  0 0  0 0 0xFFFF 0
      (Registers.flags (registers this)) (Registers.flags_prime (registers this)) /\
  deref (snd (reset this σ)) (Registers.flags (registers this)) = Flags.zero /\
  deref (snd (reset this σ)) (Registers.flags_prime (registers this)) = Flags.zero /\
  getF (fst (reset this σ)) (snd (reset this σ)) = 0 /\
  halted (fst (reset this σ)) = false /\
  interruptsEnabled (fst (reset this σ)) = false /\
  fst (step (fst (reset this σ))) = true /\
  reset (fst (reset this σ)) (snd (reset this σ)) = reset this σ.
Proof.
  intros Hv. destruct (reset_zeroes this σ Hv) as [Hzp Hzq].
  set (p := Registers.flags (registers this)) in *.
  set (q := Registers.flags_prime (registers this)) in *.
  split; [reflexivity | ].
  split; [exact Hzp | ].
  split; [exact Hzq | ].
  split; [ rewrite getF_pack; change (Registers.flags (registers (fst (reset this σ)))) with p;
           now rewrite Hzp | ].
  split; [reflexivity | ].
  split; [reflexivity | ].
  split; [reflexivity | ].
  unfold reset at 1.
  change (Registers.flags (registers (fst (reset this σ)))) with p.
  change (Registers.flags_prime (registers (fst (reset this σ)))) with q.
  cbn [Registers.flags Registers.flags_prime Registers.set_pc Registers.set_sp
       Registers.a Registers.b Registers.c Registers.d Registers.e Registers.h
       Registers.l Registers.a_prime Registers.b_prime Registers.c_prime
       Registers.d_prime Registers.e_prime Registers.h_prime Registers.l_prime
       Registers.i Registers.r Registers.ix Registers.iy Registers.sp Registers.pc].
  rewrite !clear_flags_alter.
  rewrite (alter_fixed _ p) by (now rewrite Hzp).
  rewrite (alter_fixed _ q) by (now rewrite Hzq).
  reflexivity.
Qed.

(** Both references to one object, after [setF(0xFF)]. *)
Lemma reset_postcondition_witness :
  let this :=
    with_registers
      (fun x => Registers.mk 1 2 3 4 5 6 7  8 9 10 11 12 13 14  15 16  17 18 19 20 0%nat 0%nat)
      (with_halted true (fst constructor)) in
  let σ := setF 0xFF this (snd constructor) in
  getF this σ = 0xD7 /\
  getF (fst (reset this σ)) (snd (reset this σ)) = 0 /\
  fst (step (fst (reset this σ))) = true /\
  reset (fst (reset this σ)) (snd (reset this σ)) = reset this σ.
Proof.
  intros this σ.
  assert (Hv : valid this σ) by (split; cbn; lia).
  destruct (reset_postcondition this σ Hv) as (_ & _ & _ & HF & _ & _ & Hs & Hi).
  exact (conj eq_refl (conj HF (conj Hs Hi))).
Defined.

(** ** Snapshot and restore *)

Lemma merge_flags_all (s z h pv n c : Z) (p : ref) (σ : Heap) :
  merge_flags (StateFlags.mk (Some s) (Some z) (Some h) (Some pv) (Some n) (Some c)) p σ =
  alter (fun _ => Flags.mk s z h pv n c) p σ.
Proof.
  unfold merge_flags, merge_flag, write_flag; cbn.
  rewrite !list_alter_alter_eq.
  apply list_alter_ext; [ | reflexivity ].
  intros [] _; reflexivity.
Qed.

Lemma land_0xFFFF_word (x : Z) : is_word x -> Z.land x 0xFFFF = x.
Proof. intros H. rewrite land_0xFFFF. now apply Z.mod_small. Qed.

(** X20.  A snapshot restores the machine: with PC and SP within 16 bits,
    [setState(snapshot)] after any number of [step()] calls since
    [getState()] (none, too) gives back the machine of the time of the
    snapshot, every field and both flags objects. *)
Theorem setState_restores_snapshot (this : Z80Core) (σ : Heap) (n : nat) :
  valid this σ ->
  is_word (Registers.pc (registers this)) ->
  is_word (Registers.sp (registers this)) ->
  let snap := fst (getState this σ) in
  let σ1 := snd (getState this σ) in
  setState (state_of_snapshot snap σ1) (steps n this) σ1 = (this, σ1) /\
  live this σ1 = live this σ.
Proof.
  intros Hv Hpc Hsp snap σ1.
  split; [ | now apply live_getState ].
  destruct (snapshot_flags_fresh this σ Hv) as (_ & _ & Hcopy).
  fold snap σ1 in Hcopy.
  assert (Hlive : deref σ1 (Registers.flags (registers this)) =
                  deref σ (Registers.flags (registers this)))
    by (apply deref_getState; apply Hv).
  destruct (steps_touch n this) as (a' & pc' & h' & -> & _).
  unfold setState, state_of_snapshot.
  cbn [State.registers State.flags State.pc State.sp State.halted
       State.interruptsEnabled].
  rewrite merge_flags_all.
  change (Registers.flags (registers (with_registers _ (with_a_pc_halted a' pc' h' this))))
    with (Registers.flags (registers this)).
  rewrite (alter_fixed _ (Registers.flags (registers this)))
    by (rewrite Hcopy, Hlive; now destruct (deref σ (Registers.flags (registers this)))).
  f_equal.
  change (Snapshot.pc snap) with (Registers.pc (registers this)).
  change (Snapshot.sp snap) with (Registers.sp (registers this)).
  rewrite (land_0xFFFF_word _ Hpc), (land_0xFFFF_word _ Hsp).
  destruct this as [[] ? ? ? ? ? ?]. reflexivity.
Qed.

(** LD A,0x42 then HALT: two steps later A, PC and [halted] have changed,
    and the snapshot taken before brings the machine back. *)
Lemma setState_restores_snapshot_witness :
  let this := loadProgram [0x3E; 0x42; 0x76] 0x0000 (fst constructor) in
  let σ := snd constructor in
  let snap := fst (getState this σ) in
  let σ1 := snd (getState this σ) in
  halted (steps 2 this) = true /\
  Registers.a (registers (steps 2 this)) = 0x42 /\
  setState (state_of_snapshot snap σ1) (steps 2 this) σ1 = (this, σ1).
Proof.
  intros this σ snap σ1.
  assert (Hv : valid this σ) by (split; cbn; lia).
  assert (Hpc : is_word (Registers.pc (registers this))) by (unfold is_word; cbn; lia).
  assert (Hsp : is_word (Registers.sp (registers this))) by (unfold is_word; cbn; lia).
  destruct (setState_restores_snapshot this σ 2 Hv Hpc Hsp) as (Hback & _).
  exact (conj eq_refl (conj eq_refl Hback)).
Defined.

(** Without the width the snapshot does not restore PC: 70000 comes back
    as 70000 mod 65536. *)
Example setState_snapshot_masks_pc :
  let this := with_registers (Registers.set_pc 70000) (fst constructor) in
  let σ := snd constructor in
  let snap := fst (getState this σ) in
  let σ1 := snd (getState this σ) in
  Registers.pc (registers (fst (setState (state_of_snapshot snap σ1) this σ1))) = 4464.
Proof. reflexivity. Qed.

(** X21.  The top-level [flags] of a snapshot is frozen: after later
    [setF(b)] or [reset()] on the live machine it still holds the flags of
    the time of the snapshot, while [snapshot.registers.flags] reads the
    new live flags. *)
Theorem snapshot_flags_frozen (this : Z80Core) (σ : Heap) (b : Z) :
  valid this σ ->
  let snap := fst (getState this σ) in
  let σ1 := snd (getState this σ) in
  deref (setF b this σ1) (Snapshot.flags snap) =
    deref σ (Registers.flags (registers this)) /\
  deref (snd (reset this σ1)) (Snapshot.flags snap) =
    deref σ (Registers.flags (registers this)) /\
  deref (setF b this σ1) (Registers.flags (Snapshot.registers snap)) =
    unpack b (deref σ (Registers.flags (registers this))) /\
  deref (snd (reset this σ1)) (Registers.flags (Snapshot.registers snap)) = Flags.zero.
Proof.
  intros Hv snap σ1.
  destruct (snapshot_flags_fresh this σ Hv) as (Hf & Hfp & Hcopy).
  fold snap σ1 in Hf, Hfp, Hcopy.
  destruct Hv as [Hp Hq].
  assert (Hlen : length σ1 = S (length σ))
    by (unfold σ1, getState; cbn [snd]; rewrite length_app; cbn; lia).
  assert (Hv1 : valid this σ1) by (split; lia).
  change (Registers.flags (Snapshot.registers snap))
    with (Registers.flags (registers this)).
  split; [ | split; [ | split ] ].
  - rewrite setF_alter, deref_alter_ne by congruence. exact Hcopy.
  - rewrite deref_reset_other by assumption. exact Hcopy.
  - rewrite setF_alter, deref_alter_eq by lia. reflexivity.
  - now destruct (reset_zeroes this σ1 Hv1).
Qed.

Lemma snapshot_flags_frozen_witness :
  let this := fst constructor in
  let σ := setF 0x81 this (snd constructor) in
  let snap := fst (getState this σ) in
  let σ1 := snd (getState this σ) in
  pack (deref (setF 0x00 this σ1) (Snapshot.flags snap)) = 0x81 /\
  pack (deref (setF 0x00 this σ1) (Registers.flags (Snapshot.registers snap))) = 0x00.
Proof.
  intros this σ snap σ1.
  assert (Hv : valid this σ) by (split; cbn; lia).
  destruct (snapshot_flags_frozen this σ 0x00 Hv) as (Hfrozen & _ & Hshared & _).
  fold snap σ1 in Hfrozen, Hshared.
  rewrite Hfrozen, Hshared. split; reflexivity.
Defined.

(** ** The invariant of the machine *)

Section Invariant.

Lemma is_bit_land_1 (value : Z) : is_bit (Z.land value 0x01).
Proof.
  rewrite <- (Z.shiftr_0_r (Z.land value 0x01)).
  apply (is_bit_shiftr_land_pow2 value 0). lia.
Qed.

Lemma flags_ok_set (k : Flags.key) (v : Z) (f : Flags.t) :
  is_bit v -> flags_ok f -> flags_ok (Flags.set k v f).
Proof. destruct k; unfold flags_ok; cbn; tauto. Qed.

Lemma ref_ok_alter (g : Flags.t -> Flags.t) (p q : ref) (σ : Heap) :
  (forall f : Flags.t, flags_ok f -> flags_ok (g f)) ->
  ref_ok σ q -> ref_ok (alter g p σ) q.
Proof.
  intros Hg [Hq Hok]. unfold ref_ok. rewrite length_alter.
  split; [exact Hq | ].
  destruct (decide (p = q)) as [-> | Hne].
  - rewrite deref_alter_eq by exact Hq. now apply Hg.
  - now rewrite deref_alter_ne.
Qed.

Lemma ref_ok_write_flag (p q : ref) (k : Flags.key) (v : Z) (σ : Heap) :
  is_bit v -> ref_ok σ q -> ref_ok (write_flag p k v σ) q.
Proof.
  intros Hv. apply ref_ok_alter. intros f. now apply flags_ok_set.
Qed.

Lemma ref_ok_setF (value : Z) (this : Z80Core) (q : ref) (σ : Heap) :
  ref_ok σ q -> ref_ok (setF value this σ) q.
Proof.
  intros H. unfold setF.
  repeat apply ref_ok_write_flag;
    try exact H; try apply is_bit_land_1;
    try (apply (is_bit_shiftr_land_pow2 value 7); lia);
    try (apply (is_bit_shiftr_land_pow2 value 6); lia);
    try (apply (is_bit_shiftr_land_pow2 value 4); lia);
    try (apply (is_bit_shiftr_land_pow2 value 2); lia);
    try (apply (is_bit_shiftr_land_pow2 value 1); lia).
Qed.

Lemma ref_ok_clear_flags (p q : ref) (σ : Heap) :
  ref_ok σ q -> ref_ok (clear_flags p σ) q.
Proof.
  intros H. unfold clear_flags.
  repeat apply ref_ok_write_flag; try exact H; now left.
Qed.

Lemma ref_ok_merge_flag (p q : ref) (k : Flags.key) (source : option Z) (σ : Heap) :
  opt_ok is_bit source -> ref_ok σ q -> ref_ok (merge_flag p k source σ) q.
Proof.
  destruct source as [v | ]; cbn; [ | tauto ].
  apply ref_ok_write_flag.
Qed.

Lemma ref_ok_merge_flags (s : StateFlags.t) (p q : ref) (σ : Heap) :
  state_flags_ok s -> ref_ok σ q -> ref_ok (merge_flags s p σ) q.
Proof.
  intros (Hs & Hz & Hh & Hpv & Hn & Hc) H. unfold merge_flags.
  repeat apply ref_ok_merge_flag; assumption.
Qed.

Lemma ref_ok_getState (this : Z80Core) (q : ref) (σ : Heap) :
  ref_ok σ q -> ref_ok (snd (getState this σ)) q.
Proof.
  intros [Hq Hok]. unfold ref_ok, getState, deref in *; cbn [snd].
  rewrite length_app, lookup_app_l by exact Hq. split; [lia | exact Hok].
Qed.

Lemma memory_ok_same (this this' : Z80Core) :
  memory this' = memory this -> memory_ok this -> memory_ok this'.
Proof. unfold memory_ok. intros -> H. exact H. Qed.

Lemma memory_ok_writeByte (a v : Z) (this : Z80Core) :
  memory_ok this -> memory_ok (writeByte a v this).
Proof.
  intros H x. rewrite memory_writeByte.
  destruct (decide (a mod 65536 = x)); [ | apply H ].
  apply Z.mod_pos_bound. lia.
Qed.

Lemma memory_ok_writeWord (a v : Z) (this : Z80Core) :
  memory_ok this -> memory_ok (writeWord a v this).
Proof. intros H. unfold writeWord. now do 2 apply memory_ok_writeByte. Qed.

Lemma memory_ok_loadProgram_from (program : list Z) :
  forall (i a : Z) (this : Z80Core),
    memory_ok this -> memory_ok (loadProgram_from i program a this).
Proof.
  induction program as [ | byte rest IH]; intros i a this H; [exact H | ].
  cbn [loadProgram_from]. apply IH. now apply memory_ok_writeByte.
Qed.

Lemma merge_ok {A : Type} (P : A -> Prop) (source : option A) (target : A) :
  opt_ok P source -> P target -> P (merge source target).
Proof. destruct source; cbn; tauto. Qed.

Lemma registers_ok_merge_registers (σ : Heap) (s : StateRegisters.t) (x : Registers.t) :
  state_registers_ok σ s -> registers_ok x -> registers_ok (merge_registers s x).
Proof.
  unfold state_registers_ok, registers_ok, merge_registers.
  cbn [Registers.a Registers.b Registers.c Registers.d Registers.e Registers.h
       Registers.l Registers.a_prime Registers.b_prime Registers.c_prime
       Registers.d_prime Registers.e_prime Registers.h_prime Registers.l_prime
       Registers.i Registers.r Registers.ix Registers.iy Registers.sp Registers.pc].
  intros ((?&?&?&?&?&?&?) & (?&?&?&?&?&?&?) & (?&?) & (?&?&?&?) & _)
         ((?&?&?&?&?&?&?) & (?&?&?&?&?&?&?) & (?&?) & (?&?&?&?)).
  repeat match goal with |- _ /\ _ => split end; apply merge_ok; assumption.
Qed.

Lemma registers_ok_set_pc (v : Z) (x : Registers.t) :
  is_word v -> registers_ok x -> registers_ok (Registers.set_pc v x).
Proof. unfold registers_ok; cbn; tauto. Qed.

Lemma registers_ok_set_sp (v : Z) (x : Registers.t) :
  is_word v -> registers_ok x -> registers_ok (Registers.set_sp v x).
Proof. unfold registers_ok; cbn; tauto. Qed.

Lemma debug_cases (this : Z80Core) :
  snd (debug this) = with_isDebugging true this \/
  snd (debug this) = with_isDebugging true (snd (step this)).
Proof.
  unfold debug. cbn [with_isDebugging halted stepMode registers breakpoints].
  destruct (negb (halted this) && negb (stepMode this)); [ | now left ].
  destruct (bool_decide _); [now left | right]. cbn [snd].
  change (mkZ80Core (registers this) (memory this) (halted this)
            (interruptsEnabled this) (breakpoints this) true (stepMode this))
    with (with_isDebugging true this).
  now rewrite step_with_isDebugging.
Qed.

Lemma machine_ok_setState (state : State.t) (this : Z80Core) (σ : Heap) :
  state_ok σ state -> machine_ok (this, σ) -> machine_ok (setState state this σ).
Proof.
  intros [Hsr Hsf] (Hr & Hm & Hf & Hfp). cbn [fst snd] in *.
  destruct state as [sr sf spc ssp sh sie]; cbn in Hsr, Hsf.
  unfold setState.
  cbn [State.registers State.flags State.pc State.sp State.halted State.interruptsEnabled].
  set (this1 := match sr with Some s => with_registers (merge_registers s) this | None => this end).
  assert (H1 : registers_ok (registers this1) /\
               ref_ok σ (Registers.flags (registers this1)) /\
               ref_ok σ (Registers.flags_prime (registers this1)) /\
               memory this1 = memory this).
  { subst this1. destruct sr as [s | ]; [ | tauto ]. cbn in Hsr.
    split; [now apply (registers_ok_merge_registers σ) | ].
    destruct Hsr as (_ & _ & _ & _ & Hsfl & Hsfp).
    split; [ | split; [ | reflexivity ] ]; cbn; now apply merge_ok. }
  destruct H1 as (Hr1 & Hf1 & Hfp1 & Hm1).
  set (σ1 := match sf with
             | Some s => merge_flags s (Registers.flags (registers this1)) σ
             | None => σ
             end).
  assert (H2 : ref_ok σ1 (Registers.flags (registers this1)) /\
               ref_ok σ1 (Registers.flags_prime (registers this1))).
  { subst σ1. destruct sf as [s | ]; [ | tauto ]. cbn in Hsf.
    split; now apply ref_ok_merge_flags. }
  destruct H2 as (Hf2 & Hfp2).
  clearbody this1 σ1.
  unfold machine_ok.
  destruct spc as [vpc | ], ssp as [vsp | ], sh as [vh | ], sie as [vie | ];
    cbn [fst snd with_registers with_halted with_interruptsEnabled registers memory
         halted interruptsEnabled breakpoints isDebugging stepMode
         Registers.flags Registers.flags_prime Registers.set_pc Registers.set_sp];
    (split; [ | split; [ | split ] ]);
    try exact Hf2; try exact Hfp2;
    try (apply (memory_ok_same this); [exact Hm1 | exact Hm]);
    repeat first [ exact Hr1
                 | apply registers_ok_set_sp; [apply is_word_land | ]
                 | apply registers_ok_set_pc; [apply is_word_land | ] ].
Qed.

End Invariant.

Lemma machine_ok_perform (c : call) (s : Z80Core * Heap) :
  call_ok c s -> machine_ok s -> machine_ok (perform c s).
Proof.
  destruct s as [this σ]. intros Hcall Hinv.
  destruct c; try (cbn in Hcall; now apply machine_ok_setState);
    destruct Hinv as (Hr & Hm & Hf & Hfp); cbn [fst snd] in *;
    unfold machine_ok; cbn [perform fst snd].
  - (* setBC *)
    split; [now apply registers_ok_setBC | ]. split; [exact Hm | ]. split; assumption.
  - (* setDE *)
    split; [now apply registers_ok_setDE | ]. split; [exact Hm | ]. split; assumption.
  - (* setHL *)
    split; [now apply registers_ok_setHL | ]. split; [exact Hm | ]. split; assumption.
  - (* setF *)
    split; [exact Hr | ]. split; [exact Hm | ]. split; now apply ref_ok_setF.
  - (* exchangeRegisterSets *)
    split; [now apply registers_ok_exchangeRegisterSets | ].
    split; [exact Hm | ]. split; assumption.
  - (* writeByte *)
    split; [exact Hr | ]. split; [now apply memory_ok_writeByte | ]. split; assumption.
  - (* writeWord *)
    split; [exact Hr | ]. split; [now apply memory_ok_writeWord | ]. split; assumption.
  - (* pushStack *)
    split; [now apply registers_ok_pushStack | ].
    split; [ | split; assumption ].
    unfold pushStack. apply memory_ok_writeWord. exact Hm.
  - (* popStack *)
    split; [now apply registers_ok_popStack | ]. split; [exact Hm | ]. split; assumption.
  - (* reset *)
    split; [apply registers_ok_reset | ]. split; [exact Hm | ].
    split; unfold reset; cbn [snd]; now do 2 apply ref_ok_clear_flags.
  - (* loadProgram *)
    destruct (loadProgram_from_fields startAddress program 0 this) as (Hreg & _).
    unfold loadProgram. rewrite Hreg.
    split; [exact Hr | ]. split; [now apply memory_ok_loadProgram_from | ].
    split; assumption.
  - (* setBreakpoint *)
    split; [exact Hr | ]. split; [exact Hm | ]. split; assumption.
  - (* clearBreakpoint *)
    split; [exact Hr | ]. split; [exact Hm | ]. split; assumption.
  - (* toggleBreakpoint *)
    unfold toggleBreakpoint. destruct (bool_decide _); cbn [snd];
      (split; [exact Hr | ]; split; [exact Hm | ]; split; assumption).
  - (* clearAllBreakpoints *)
    split; [exact Hr | ]. split; [exact Hm | ]. split; assumption.
  - (* step *)
    split; [now apply registers_ok_step | ].
    destruct (step_touches this) as (a' & pc' & h' & -> & _).
    split; [exact Hm | ]. split; assumption.
  - (* debug *)
    destruct (debug_cases this) as [-> | ->].
    + split; [exact Hr | ]. split; [exact Hm | ]. split; assumption.
    + split; [now apply registers_ok_step | ].
      destruct (step_touches this) as (a' & pc' & h' & -> & _).
      split; [exact Hm | ]. split; assumption.
  - (* getState *)
    split; [exact Hr | ]. split; [exact Hm | ]. split; now apply ref_ok_getState.
Qed.

Lemma machine_ok_performs (cs : list call) :
  forall s : Z80Core * Heap,
    calls_ok cs s -> machine_ok s -> machine_ok (performs cs s).
Proof.
  induction cs as [ | c cs IH]; intros s Hcalls Hinv; [exact Hinv | ].
  destruct Hcalls as [Hc Hcs]. cbn [performs].
  apply IH; [exact Hcs | ]. now apply machine_ok_perform.
Qed.

Lemma machine_ok_constructor : machine_ok constructor.
Proof.
  unfold machine_ok, registers_ok, memory_ok, ref_ok, flags_ok, is_byte, is_word, is_bit.
  cbn. repeat split; try lia; auto.
Qed.



(** X23.  On a machine that satisfies the invariant the getters return
    values of their widths: [getBC], [getDE], [getHL], [readWord] and
    [popStack] give 16-bit values, [readByte] and [getF] 8-bit values. *)
Theorem getters_within_width (this : Z80Core) (σ : Heap) (address : Z) :
  machine_ok (this, σ) ->
  is_word (getBC this) /\ is_word (getDE this) /\ is_word (getHL this) /\
  is_byte (readByte address this) /\
  is_word (readWord address this) /\
  is_word (fst (popStack this)) /\
  is_byte (getF this σ).
Proof.
  intros (Hr & Hm & [_ Hf] & _). cbn [fst snd] in *.
  assert (Hpair : forall hi lo : Z, is_byte hi -> is_byte lo ->
                    is_word (Z.lor (Z.shiftl hi 8) lo)).
  { unfold is_byte, is_word. intros hi lo Hhi Hlo.
    rewrite lor_shiftl_low by (change (2 ^ 8) with 256; lia).
    change (2 ^ 8) with 256. lia. }
  destruct Hr as ((_ & Hb & Hc & Hd & He & Hh & Hl) & _).
  split; [now apply Hpair | ].
  split; [now apply Hpair | ].
  split; [now apply Hpair | ].
  split; [apply Hm | ].
  split; [apply Hpair; apply Hm | ].
  split; [apply Hpair; apply Hm | ].
  rewrite getF_pack.
  destruct (deref σ (Registers.flags (registers this))) as [s z h pv n c].
  unfold flags_ok, is_bit in Hf; cbn in Hf.
  destruct Hf as ([-> | ->] & [-> | ->] & [-> | ->] & [-> | ->] & [-> | ->] & [-> | ->]);
    vm_compute; (split; [discriminate | reflexivity]).
Qed.

Lemma getters_within_width_witness :
  let s := performs [Call_setBC 0xFFFF; Call_setF 0xFF; Call_pushStack 0xFFFF] constructor in
  is_word (getBC (fst s)) /\ is_word (fst (popStack (fst s))) /\ is_byte (getF (fst s) (snd s)).
Proof.
  intros s.
  assert (Hok : machine_ok (fst s, snd s)).
  { change (fst s, snd s) with s.
    apply machine_ok_performs; [ | apply machine_ok_constructor ].
    cbn. tauto. }
  destruct (getters_within_width (fst s) (snd s) 0 Hok) as (HBC & _ & _ & _ & _ & Hpop & HF).
  exact (conj HBC (conj Hpop HF)).
Defined.

(** ** What a snapshot restores, and what it does not *)

(** X24.  [setState(snapshot)] on any later machine brings back the whole
    register file (the two flags references too), [halted],
    [interruptsEnabled] and the contents of the primary flags object of
    the time of the snapshot, when PC and SP were within 16 bits and the
    snapshot's own flags object was not written since.  It restores
    nothing else: the memory and the breakpoints are those of the later
    machine, and every other object of the store, the shadow flags object
    among them, keeps its later contents. *)
Theorem setState_snapshot_restores_registers
    (this this' : Z80Core) (σ σ' : Heap) :
  is_word (Registers.pc (registers this)) ->
  is_word (Registers.sp (registers this)) ->
  let snap := fst (getState this σ) in
  (Registers.flags (registers this) < length σ')%nat ->
  deref σ' (Snapshot.flags snap) = deref σ (Registers.flags (registers this)) ->
  let restored := setState (state_of_snapshot snap σ') this' σ' in
  registers (fst restored) = registers this /\
  halted (fst restored) = halted this /\
  interruptsEnabled (fst restored) = interruptsEnabled this /\
  deref (snd restored) (Registers.flags (registers this)) =
    deref σ (Registers.flags (registers this)) /\
  (forall q : ref, q <> Registers.flags (registers this) ->
     deref (snd restored) q = deref σ' q) /\
  memory (fst restored) = memory this' /\
  breakpoints (fst restored) = breakpoints this'.
Proof.
  intros Hpc Hsp snap Hp Hcopy restored. subst restored.
  unfold setState, state_of_snapshot.
  cbn [State.registers State.flags State.pc State.sp State.halted
       State.interruptsEnabled].
  rewrite merge_flags_all.
  change (Snapshot.registers snap) with (registers this).
  change (Snapshot.pc snap) with (Registers.pc (registers this)).
  change (Snapshot.sp snap) with (Registers.sp (registers this)).
  rewrite (land_0xFFFF_word _ Hpc), (land_0xFFFF_word _ Hsp).
  cbn [fst snd].
  split; [destruct this as [[] ? ? ? ? ? ?]; reflexivity | ].
  split; [reflexivity | ]. split; [reflexivity | ].
  split.
  { change (Registers.flags (registers (with_registers _ this')))
      with (Registers.flags (registers this)).
    rewrite deref_alter_eq by exact Hp. rewrite Hcopy.
    now destruct (deref σ (Registers.flags (registers this))). }
  split; [ | split; reflexivity ].
  intros q Hq.
  change (Registers.flags (registers (with_registers _ this')))
    with (Registers.flags (registers this)).
  now rewrite deref_alter_ne by congruence.
Qed.

(** Snapshot, then exchange, [setF(0xFF)] (on the former shadow object),
    a register write and a memory write: the snapshot brings back the
    register file, but the shadow flags stay 0xD7 and the memory cell
    stays written. *)
Lemma setState_snapshot_restores_registers_witness :
  let this := fst constructor in
  let σ := snd constructor in
  let snap := fst (getState this σ) in
  let σ1 := snd (getState this σ) in
  let this' := writeByte 0x0000 0x76 (setBC 0x1234 (exchangeRegisterSets this)) in
  let σ' := setF 0xFF (exchangeRegisterSets this) σ1 in
  let restored := setState (state_of_snapshot snap σ') this' σ' in
  registers (fst restored) = registers this /\
  getF (fst restored) (snd restored) = 0x00 /\
  getF (exchangeRegisterSets (fst restored)) (snd restored) = 0xD7 /\
  readByte 0x0000 (fst restored) = 0x76.
Proof.
  intros this σ snap σ1 this' σ' restored.
  assert (Hpc : is_word (Registers.pc (registers this))) by (unfold is_word; cbn; lia).
  assert (Hsp : is_word (Registers.sp (registers this))) by (unfold is_word; cbn; lia).
  assert (Hp : (Registers.flags (registers this) < length σ')%nat) by (cbn; lia).
  assert (Hcopy : deref σ' (Snapshot.flags snap) =
                  deref σ (Registers.flags (registers this))) by reflexivity.
  destruct (setState_snapshot_restores_registers this this' σ σ' Hpc Hsp Hp Hcopy)
    as (Hreg & _).
  exact (conj Hreg (conj eq_refl (conj eq_refl eq_refl))).
Defined.

(** ** Breakpoint addresses *)



